(** * MedAtlas: provider status, confidence and discrepancy handling

    A shallow embedding of the MedAtlas front end (the React components
    under [frontend/src]) and of the validation engine it talks to.

    Part I holds the definitions, one module per source file, each
    function under the name it has in the source.  Part II holds the
    lemmas and the theorems about them, Part III those about the rest
    of the components.

    Conventions of the embedding:
    - a JavaScript value read from an untyped API payload is a [jsval];
      [JUndefined] is a missing property;
    - a number is an integer or [NaN]: the scores of the data model are
      integers ([confidence_score] is an integer 0-100), and [NaN] is
      kept because [Number(..)] can produce it and [||] treats it as
      falsy.  Fractions and infinities are not represented;
    - an object literal looked up by a computed key ([badges[status]])
      is a [gmap string _] of its own properties;
    - React state is passed explicitly: a handler is a function from the
      previous state (and the server's answer) to the next state. *)

From Stdlib Require Import Strings.Ascii.
From stdpp Require Import base numbers strings list gmap pretty.

Local Open Scope string_scope.
Local Open Scope Z_scope.

(* ===================================================================== *)
(** * Part I: definitions *)
(* ===================================================================== *)

(** ** JavaScript values *)

Module JS.

Inductive number : Type :=
| Fin (z : Z)
| NaN.

Inductive jsval : Type :=
| JUndefined
| JNull
| JBool (b : bool)
| JNum (n : number)
| JStr (s : string).

#[global] Instance number_eq_dec : EqDecision number.
Proof. solve_decision. Defined.

#[global] Instance jsval_eq_dec : EqDecision jsval.
Proof. solve_decision. Defined.

(** [a >= b] against an integer literal; every comparison with [NaN]
    is false. *)
Definition ge (a : number) (b : Z) : bool :=
  match a with
  | Fin z => bool_decide (b ≤ z)
  | NaN => false
  end.

Definition Math_min (a b : number) : number :=
  match a, b with
  | Fin x, Fin y => Fin (x `min` y)
  | _, _ => NaN
  end.

Definition Math_max (a b : number) : number :=
  match a, b with
  | Fin x, Fin y => Fin (x `max` y)
  | _, _ => NaN
  end.

(** [Number.prototype.toString] and, on an integer, [toFixed(0)]: the
    decimal digits (JavaScript switches to exponent notation from
    [10^21] on; no score comes near). *)
Definition number_to_string (n : number) : string :=
  match n with
  | Fin z => pretty z
  | NaN => "NaN"
  end.

Definition toFixed0 (n : number) : string := number_to_string n.

(** [ToBoolean]. *)
Definition truthy (v : jsval) : bool :=
  match v with
  | JUndefined | JNull => false
  | JBool b => b
  | JNum (Fin z) => negb (bool_decide (z = 0))
  | JNum NaN => false
  | JStr s => negb (bool_decide (s = ""))
  end.

(** [a || b] *)
Definition or (a b : jsval) : jsval := if truthy a then a else b.

(** [a ?? b] *)
Definition nullish (v : jsval) : bool :=
  match v with
  | JUndefined | JNull => true
  | _ => false
  end.

Definition coalesce (a b : jsval) : jsval := if nullish a then b else a.

(** [a === b] *)
Definition strict_eq (a b : jsval) : bool :=
  match a, b with
  | JNum NaN, _ | _, JNum NaN => false
  | _, _ => bool_decide (a = b)
  end.

(** [ToString], as used by a template literal and by a property key. *)
Definition ToString (v : jsval) : string :=
  match v with
  | JUndefined => "undefined"
  | JNull => "null"
  | JBool true => "true"
  | JBool false => "false"
  | JNum n => number_to_string n
  | JStr s => s
  end.

(** The property names every object literal inherits from
    [Object.prototype]: a lookup of one of them finds a function (or,
    for [__proto__], the prototype), which is truthy and has none of
    the properties of a table entry. *)
Definition Object_prototype : list string :=
  [ "constructor"; "hasOwnProperty"; "isPrototypeOf";
    "propertyIsEnumerable"; "toLocaleString"; "toString"; "valueOf";
    "__proto__"; "__defineGetter__"; "__defineSetter__";
    "__lookupGetter__"; "__lookupSetter__" ].

Inductive property (A : Type) : Type :=
| Own (a : A)
| Inherited
| Missing.
Arguments Own {A} a.
Arguments Inherited {A}.
Arguments Missing {A}.

(** [table[key]] on an object literal whose own properties are
    [table]. *)
Definition get {A} (table : gmap string A) (key : string) : property A :=
  match table !! key with
  | Some a => Own a
  | None =>
      if bool_decide (key ∈ Object_prototype) then Inherited else Missing
  end.

(** [Number(s)] on a string follows JavaScript's numeric-literal
    grammar; it is left abstract, so every result below holds whatever
    that grammar yields (within the integers-or-[NaN] model). *)
Class StringToNumber := string_to_number : string → number.

(** [ToNumber], the coercion behind [Number(v)] and [v >= 80]. *)
Definition ToNumber `{StringToNumber} (v : jsval) : number :=
  match v with
  | JUndefined => NaN
  | JNull => Fin 0
  | JBool true => Fin 1
  | JBool false => Fin 0
  | JNum n => n
  | JStr s => string_to_number s
  end.

End JS.

Import JS.

(** ** The score bands of the authoritative threshold table

    The table of the scoring component: [>= 80] validated, [60-79] the
    review band, [< 60] high risk.  [threshold_band] follows the words of
    the table; the components below are compared with it. *)

Inductive Band : Type :=
| BandValidated
| BandReview
| BandHighRisk.

#[global] Instance Band_eq_dec : EqDecision Band.
Proof. solve_decision. Defined.

Definition threshold_band (s : Z) : Band :=
  if bool_decide (80 ≤ s) then BandValidated
  else if bool_decide (60 ≤ s) then BandReview
  else BandHighRisk.

(** What a colour says to the user.  Green is the colour of "validated"
    (the Validated summary card is [#27ae60], the validated badge is
    green), amber that of the review band, red that of high risk; the two
    front ends spell the colours as hex codes and as utility classes. *)
Definition color_band (color : string) : option Band :=
  if bool_decide (color = "#27ae60") || bool_decide (color = "bg-green-500")
  then Some BandValidated
  else if bool_decide (color = "#f39c12") || bool_decide (color = "bg-amber-500")
  then Some BandReview
  else if bool_decide (color = "#e74c3c") || bool_decide (color = "bg-red-500")
  then Some BandHighRisk
  else None.

(** ** components/ProviderTable.jsx *)

Module ProviderTable.

Record Badge : Type := { class : string; text : string }.

(** A rendered [<span className=..>child</span>]; an [undefined] child
    renders nothing. *)
Record Span : Type := { className : string; children : string }.

Definition badges : gmap string Badge :=
  list_to_map
    [ ("validated", {| class := "badge-success"; text := "Validated" |});
      ("pending", {| class := "badge-warning"; text := "Pending" |});
      ("needs_review", {| class := "badge-info"; text := "Needs Review" |});
      ("review_recommended",
        {| class := "badge-warning"; text := "Review Recommended" |});
      ("high_risk", {| class := "badge-danger"; text := "High Risk" |}) ].

Definition badges_pending : Badge :=
  {| class := "badge-warning"; text := "Pending" |}.

Definition render_badge (b : Badge) : Span :=
  {| className := "badge " +:+ class b; children := text b |}.

(** [badges[status] || badges.pending], then the span.  An inherited
    property is truthy, and its [class] and [text] are undefined. *)
Definition getStatusBadge (status : jsval) : Span :=
  match get badges (ToString status) with
  | Own b => render_badge b
  | Inherited => {| className := "badge undefined"; children := "" |}
  | Missing => render_badge badges_pending
  end.

(** The fields of a provider payload that the confidence and status
    cells read. *)
Record provider : Type := {
  id : jsval;
  confidence_score : jsval;
  validation_status : jsval;
  status : jsval
}.

(** The status handed to the badge:
    [provider.validation_status || provider.status || 'pending']. *)
Definition shown_status (p : provider) : jsval :=
  or (or (validation_status p) (status p)) (JStr "pending").

(** The confidence and status cells of one table row. *)
Record Row : Type := {
  key : jsval;
  score_color : string;
  score : jsval;
  status_badge : Span
}.

Section WithNumber.
Context `{StringToNumber}.

Definition getConfidenceColor (score : jsval) : string :=
  if ge (ToNumber score) 80 then "#27ae60"
  else if ge (ToNumber score) 60 then "#f39c12"
  else "#e74c3c".

Definition render_row (p : provider) : Row :=
  {| key := id p;
     score_color := getConfidenceColor (or (confidence_score p) (JNum (Fin 0)));
     score := or (confidence_score p) (JNum (Fin 0));
     status_badge := getStatusBadge (shown_status p) |}.

(** [providers.map(..)]; the empty list renders the empty-state notice,
    that is no row. *)
Definition ProviderTable (providers : list provider) : list Row :=
  render_row <$> providers.

End WithNumber.

End ProviderTable.

(** ** components/DiscrepancyList.jsx *)

Module DiscrepancyList.

Section WithNumber.
Context `{StringToNumber}.

Definition getConfidenceColor (confidence : jsval) : string :=
  if ge (ToNumber confidence) 80 then "#27ae60"
  else if ge (ToNumber confidence) 60 then "#f39c12"
  else "#e74c3c".

End WithNumber.

(** The fields of a discrepancy payload that the action area reads. *)
Record discrepancy : Type := {
  id : jsval;
  status : jsval
}.

(** What the action area of a card holds. *)
Inductive Action : Type :=
| MarkAsResolved (onResolve_arg : jsval)   (* the button, and what a click passes *)
| ResolvedBadge.                           (* the "Resolved" mark, no handler *)

(** [{status === 'open' && <button ..>} {status === 'resolved' && <span ..>}] *)
Definition actions (d : discrepancy) : list Action :=
  ((if strict_eq (status d) (JStr "open") then [MarkAsResolved (id d)] else [])
   ++ (if strict_eq (status d) (JStr "resolved") then [ResolvedBadge] else []))%list.

End DiscrepancyList.

(** ** pages/ProvidersPage.jsx *)

Module ProvidersPage.

(** The values of the [<option>]s of the status filter, in order. *)
Definition filter_options : list string :=
  [ "all"; "pending"; "validated"; "needs_review"; "review_recommended" ].

Definition getFilteredProviders
    (statusFilter : string) (providers : list ProviderTable.provider)
  : list ProviderTable.provider :=
  if bool_decide (statusFilter = "all") then providers
  else
    base.filter
      (λ p, strict_eq (ProviderTable.status p) (JStr statusFilter) = true)
      providers.

(** The table the page renders: [<ProviderTable providers={filteredProviders}>]. *)
Definition rendered_rows `{StringToNumber}
    (statusFilter : string) (providers : list ProviderTable.provider)
  : list ProviderTable.Row :=
  ProviderTable.ProviderTable (getFilteredProviders statusFilter providers).

End ProvidersPage.

(** ** pages/Providers.tsx *)

Module Providers.

(** [type ProviderStatus = 'validated' | 'pending' | 'failed'] *)
Definition ProviderStatus : gset string :=
  {[ "validated"; "pending"; "failed" ]}.

(** [interface Provider].  The casts [as ProviderStatus] leave no trace
    at run time, so [status] holds whatever the server sent. *)
Record Provider : Type := {
  id : string;
  name : string;
  npi : string;
  specialty : string;
  status : jsval;
  confidence : number;
  lastValidated : string
}.

Definition styles : gmap string string :=
  list_to_map
    [ ("validated", "bg-green-600/10 text-green-400 border-green-600/20");
      ("pending", "bg-amber-600/10 text-amber-400 border-amber-600/20");
      ("failed", "bg-red-600/10 text-red-400 border-red-600/20") ].

Definition labels : gmap string string :=
  list_to_map
    [ ("validated", "Validated"); ("pending", "Pending"); ("failed", "Failed") ].

(** [StatusBadge]: the looked-up style and label of the span. *)
Definition StatusBadge (status : jsval) : property string * property string :=
  (get styles (ToString status), get labels (ToString status)).

(** [ConfidenceBar]: the colour class of the bar, its [width] style and
    the percentage printed next to it. *)
Record Bar : Type := { color : string; width : string; percentage : string }.

Definition safeWidth (confidence : number) : number :=
  Math_max (Fin 0) (Math_min (Fin 100) confidence).

Definition ConfidenceBar (confidence : number) : Bar :=
  {| color :=
       if ge confidence 90 then "bg-green-500"
       else if ge confidence 75 then "bg-amber-500"
       else "bg-red-500";
     width := number_to_string (safeWidth confidence) +:+ "%";
     percentage := toFixed0 (safeWidth confidence) +:+ "%" |}.

(** The answer of [providerAPI.validateProvider]. *)
Record FinalResults : Type := {
  validation_status : jsval;
  confidence_score : jsval
}.

Record ValidateResult : Type := { final_results : option FinalResults }.

(** [result?.final_results ?? {}] *)
Definition final_of (result : option ValidateResult) : FinalResults :=
  match result with
  | Some {| final_results := Some f |} => f
  | _ => {| validation_status := JUndefined; confidence_score := JUndefined |}
  end.

(** The page state that [handleValidate] writes. *)
Record State : Type := {
  providers : list Provider;
  error : jsval;
  validatingId : option string
}.

(** A rejected request: [err?.response?.data?.detail] and [err?.message]. *)
Record Failure : Type := { detail : jsval; message : jsval }.

Section WithNumber.
Context `{StringToNumber}.

Definition newStatus (final : FinalResults) : jsval :=
  coalesce (validation_status final) (JStr "validated").

Definition newConfidence (final : FinalResults) : number :=
  match confidence_score final with
  | JNum n => n
  | v => if truthy v then ToNumber v else Fin 0
  end.

(** The updater handed to [setProviders]; [today] is
    [new Date().toISOString().slice(0, 10)]. *)
Definition update_provider
    (today id : string) (final : FinalResults) (p : Provider) : Provider :=
  if bool_decide (Providers.id p = id) then
    {| id := Providers.id p;
       name := name p;
       npi := npi p;
       specialty := specialty p;
       status := newStatus final;
       confidence :=
         if truthy (JNum (newConfidence final)) then newConfidence final
         else confidence p;
       lastValidated := today |}
  else p.

(** [handleValidate(id)], from the state before the click to the state
    once the [finally] block has run. *)
Definition handleValidate
    (today id : string) (answer : Failure + option ValidateResult) (st : State)
  : State :=
  match answer with
  | inr result =>
      {| providers := update_provider today id (final_of result) <$> providers st;
         error := JNull;
         validatingId := None |}
  | inl err =>
      {| providers := providers st;
         error :=
           or (or (detail err) (message err)) (JStr "Failed to validate provider");
         validatingId := None |}
  end.

End WithNumber.

End Providers.

(** ** pages/Discrepancies.tsx *)

Module Discrepancies.

(** [type Status = 'open' | 'under_review' | 'resolved'] *)
Definition Status : gset string := {[ "open"; "under_review"; "resolved" ]}.

(** [String.prototype.toLowerCase] on the ASCII letters; other code
    units are left as they are (the status words are ASCII). *)
Definition lower_ascii (c : ascii) : ascii :=
  let n := nat_of_ascii c in
  if bool_decide (65 ≤ n ≤ 90)%nat then ascii_of_nat (n + 32) else c.

Fixpoint toLowerCase (s : string) : string :=
  match s with
  | EmptyString => EmptyString
  | String c rest => String (lower_ascii c) (toLowerCase rest)
  end.

(** [s.replace(' ', '_')]: only the first space is replaced. *)
Fixpoint replace_space (s : string) : string :=
  match s with
  | EmptyString => EmptyString
  | String c rest =>
      if bool_decide (c = " "%char) then String "_"%char rest
      else String c (replace_space rest)
  end.

(** [rawStatus.toLowerCase().replace(' ', '_') as Status] *)
Definition normalizedStatus (rawStatus : string) : string :=
  replace_space (toLowerCase rawStatus).

(** [interface Discrepancy] *)
Record Discrepancy : Type := {
  id : string;
  providerId : string;
  providerName : string;
  type : string;
  severity : string;
  description : string;
  detectedDate : string;
  status : string
}.

Definition styles : gmap string string :=
  list_to_map
    [ ("open", "bg-red-600/10 text-red-400 border-red-600/20");
      ("under_review", "bg-amber-600/10 text-amber-400 border-amber-600/20");
      ("resolved", "bg-green-600/10 text-green-400 border-green-600/20") ].

Definition labels : gmap string string :=
  list_to_map
    [ ("open", "Open"); ("under_review", "Under Review");
      ("resolved", "Resolved") ].

Definition StatusBadge (status : string) : property string * property string :=
  (get styles status, get labels status).

(** The page state that [handleReview] writes. *)
Record State : Type := {
  discrepancies : list Discrepancy;
  error : jsval;
  updatingId : option string
}.

Record Failure : Type := { detail : jsval; message : jsval }.

(** The arguments of [discrepancyAPI.updateDiscrepancy]. *)
Record Update : Type := {
  update_id : number;
  update_status : string;
  update_notes : string
}.

Definition nextStatus (status : string) : string :=
  if bool_decide (status = "open") then "under_review"
  else if bool_decide (status = "under_review") then "resolved"
  else "resolved".

Definition notes (nextStatus : string) : string :=
  if bool_decide (nextStatus = "under_review")
  then "Marked as under review from UI"
  else if bool_decide (nextStatus = "resolved")
  then "Marked as resolved from UI"
  else "".

(** The request [handleReview(disc)] sends. *)
Definition review_request `{StringToNumber} (disc : Discrepancy) : Update :=
  {| update_id := ToNumber (JStr (id disc));
     update_status := nextStatus (status disc);
     update_notes := notes (nextStatus (status disc)) |}.

Definition set_status (target status' : string) (d : Discrepancy) : Discrepancy :=
  if bool_decide (id d = target) then
    {| id := id d;
       providerId := providerId d;
       providerName := providerName d;
       type := type d;
       severity := severity d;
       description := description d;
       detectedDate := detectedDate d;
       status := status' |}
  else d.

(** [handleReview(disc)], from the state before the click to the state
    once the [finally] block has run.  The answer is the [status] of the
    updated row the server returns, a string when present. *)
Definition handleReview
    (disc : Discrepancy) (answer : Failure + option string) (st : State) : State :=
  match answer with
  | inr updated_status =>
      let rawStatus := default (nextStatus (status disc)) updated_status in
      {| discrepancies :=
           set_status (id disc) (normalizedStatus rawStatus) <$> discrepancies st;
         error := JNull;
         updatingId := None |}
  | inl err =>
      {| discrepancies := discrepancies st;
         error :=
           or (or (detail err) (message err))
              (JStr "Failed to update discrepancy");
         updatingId := None |}
  end.

(** The Review button is rendered on every row, whatever its status; it
    is disabled only while that row is being updated. *)
Definition review_enabled (updatingId : option string) (d : Discrepancy) : bool :=
  negb (bool_decide (updatingId = Some (id d))).

Definition count_status (s : string) (ds : list Discrepancy) : nat :=
  length (base.filter (λ d, status d = s) ds).

Definition totalOpen := count_status "open".
Definition totalUnderReview := count_status "under_review".
Definition totalResolved := count_status "resolved".

End Discrepancies.

(** ** pages/DiscrepanciesPage.jsx *)

Module DiscrepanciesPage.

(** The values of the [<option>]s of the status filter, in order. *)
Definition filter_options : list string := [ "all"; "open"; "resolved" ].

(** The arguments of [discrepancyAPI.updateDiscrepancy]. *)
Record Update : Type := {
  update_id : jsval;
  update_status : string;
  update_notes : string
}.

(** The request [handleResolve(discrepancyId)] sends; the page then
    reloads its data from the server. *)
Definition handleResolve (discrepancyId : jsval) : Update :=
  {| update_id := discrepancyId;
     update_status := "resolved";
     update_notes := "Resolved manually" |}.

Definition getFilteredDiscrepancies
    (statusFilter : string) (discrepancies : list DiscrepancyList.discrepancy)
  : list DiscrepancyList.discrepancy :=
  if bool_decide (statusFilter = "all") then discrepancies
  else
    base.filter
      (λ d, strict_eq (DiscrepancyList.status d) (JStr statusFilter) = true)
      discrepancies.

(** The updates a user can trigger on the card of [d]: the list wires
    every [MarkAsResolved] button to [handleResolve]. *)
Definition offered_updates (d : DiscrepancyList.discrepancy) : list Update :=
  omap
    (λ a, match a with
          | DiscrepancyList.MarkAsResolved x => Some (handleResolve x)
          | DiscrepancyList.ResolvedBadge => None
          end)
    (DiscrepancyList.actions d).

End DiscrepanciesPage.

(** ** pages/Dashboard.tsx and components/SummaryCards.jsx *)

Module Dashboard.

(** What a card prints: a number, or a string built by the component. *)
Inductive Value : Type :=
| VNum (n : Z)
| VStr (s : string).

Section Summary.
(** The average score is a fraction; its type and the digits
    [toFixed(1)] prints for it are left abstract. *)
Context {float : Type} (toFixed1 : float → string) (zero : float).

(** [interface SummaryStats], the record [getSummary()] resolves to. *)
Record SummaryStats : Type := {
  total_providers : Z;
  validated_providers : Z;
  pending_providers : Z;
  total_discrepancies : Z;
  open_discrepancies : Z;
  avg_confidence_score : float;
  high_risk_providers : Z
}.

(** The five cards of the top row of [Dashboard], title and value; a
    missing summary counts as zero ([summary?.x ?? 0]). *)
Definition StatCards (summary : option SummaryStats) : list (string * Value) :=
  let total := from_option total_providers 0 summary in
  let validated := from_option validated_providers 0 summary in
  let pending := from_option pending_providers 0 summary in
  let openDisc := from_option open_discrepancies 0 summary in
  let avgConf := from_option avg_confidence_score zero summary in
  [ ("Total Providers", VNum total);
    ("Validated", VNum validated);
    ("Pending", VNum pending);
    ("Open Discrepancies", VNum openDisc);
    ("Avg Confidence", VStr (toFixed1 avgConf +:+ "%")) ].

End Summary.

Arguments SummaryStats : clear implicits.

End Dashboard.

Module SummaryCards.

Import Dashboard.

Record Card : Type := {
  title : string;
  value : Dashboard.Value;
  color : string
}.

Section Summary.
Context {float : Type} (toFixed1 : float → string).

(** [SummaryCards({ summary })]: nothing for a missing summary, else the
    seven cards in order (the icon of a card is left out). *)
Definition SummaryCards (summary : option (SummaryStats float)) : list Card :=
  match summary with
  | None => []
  | Some summary =>
      [ {| title := "Total Providers";
           value := VNum (total_providers summary);
           color := "#3498db" |};
        {| title := "Validated";
           value := VNum (validated_providers summary);
           color := "#27ae60" |};
        {| title := "Pending";
           value := VNum (pending_providers summary);
           color := "#f39c12" |};
        {| title := "Discrepancies";
           value := VNum (total_discrepancies summary);
           color := "#e74c3c" |};
        {| title := "Open Issues";
           value := VNum (open_discrepancies summary);
           color := "#e67e22" |};
        {| title := "Avg Confidence";
           value := VStr (toFixed1 (avg_confidence_score summary) +:+ "%");
           color := "#9b59b6" |};
        {| title := "High Risk";
           value := VNum (high_risk_providers summary);
           color := "#c0392b" |} ]
  end.

End Summary.

End SummaryCards.

(** ** The validation engine behind the API

    The engine ([validateOne], the reconciler and the discrepancy table)
    lives in the backend, which is not among the sources: only its
    callers are ([validationAPI.validateProvider(providerId, null, true)]
    in [ProvidersPage.handleValidate]).  This module models it from the
    component design of the specification: collector, detector, scorer,
    reconciler, runner.  The normalizer, the registered fields and the
    weight tables are configuration. *)

Module Engine.

(** Modelled from the spec: the origin of a candidate value, "source in
    {import, registry, enrichment}". *)
Inductive Source : Type := import | registry | enrichment.

(** Modelled from the spec: "risk_level in {low, medium, high}". *)
Inductive Risk : Type := low | medium | high.

(** Modelled from the spec: "status in {open, resolved}" of a
    discrepancy. *)
Inductive DiscrepancyStatus : Type := open | resolved.

(** Modelled from the spec: "validation_status in {pending, validated,
    needs_review, review_recommended, high_risk}". *)
Inductive ValidationStatus : Type :=
| pending | validated | needs_review | review_recommended | high_risk.

#[global] Instance Source_eq_dec : EqDecision Source.
Proof. solve_decision. Defined.
#[global] Instance Risk_eq_dec : EqDecision Risk.
Proof. solve_decision. Defined.
#[global] Instance DiscrepancyStatus_eq_dec : EqDecision DiscrepancyStatus.
Proof. solve_decision. Defined.
#[global] Instance ValidationStatus_eq_dec : EqDecision ValidationStatus.
Proof. solve_decision. Defined.

(** Modelled from the spec: the configuration of the engine, which the
    spec leaves to deployment.  [normalize field raw] is the
    FieldNormalizer ([None] is null, "unparseable"); [fields] are the
    registered fields; [weight] is the scorer's weight table;
    [trust_weight] is the per-source trust (registry 90, enrichment 75,
    import 60 in the design policy). *)
Record Config : Type := {
  normalize : string → string → option string;
  fields : list string;
  weight : string → Z;
  trust_weight : Source → Z
}.

(** Modelled from the spec: the three external collaborators, as the raw
    string each returns for a field of a provider; [None] is "absent"
    (not returned, not found, timed out), [Some ""] is "present but
    empty".  Unchanged source data is the same [Sources]. *)
Definition Sources : Type := Source → nat → string → option string.

(** Modelled from the spec: FieldCandidate (field_name, source,
    raw_value: string|absent, normalized_value: string|null). *)
Record FieldCandidate : Type := {
  field_name : string;
  source : Source;
  raw_value : option string;
  normalized_value : option string
}.

(** Modelled from the spec: FieldOutcome, "per-field confidence, risk, and
    whether a discrepancy exists". *)
Record FieldOutcome : Type := {
  field_confidence : Z;
  risk : Risk;
  has_discrepancy : bool
}.

(** Modelled from the spec: Discrepancy (id, provider_id, field_name,
    import_value, registry_value, enrichment_value, final_value,
    confidence, risk_level, status, notes, created_at, resolved_at). *)
Record Discrepancy : Type := {
  id : nat;
  provider_id : nat;
  field : string;
  import_value : option string;
  registry_value : option string;
  enrichment_value : option string;
  final_value : option string;
  confidence : Z;
  risk_level : Risk;
  status : DiscrepancyStatus;
  notes : string;
  created_at : nat;
  resolved_at : option nat
}.

(** Modelled from the spec: FinalizedProvider (confidence_score,
    validation_status, per-field final values), which is also what the
    provider table keeps of a run; identity, contact and payload columns
    are opaque to the engine and left out. *)
Record FinalizedProvider : Type := {
  confidence_score : Z;
  validation_status : ValidationStatus;
  final_values : list (string * option string)
}.

(** Modelled from the spec: ProviderRecord, as far as the engine writes
    it: the outcome of the latest run and its timestamp. *)
Record ProviderRecord : Type := {
  finalized : FinalizedProvider;
  last_validated_at : option nat
}.

(** Modelled from the spec: the persisted layout, a provider table and a
    discrepancy table. *)
Record Store : Type := {
  providers : gmap nat ProviderRecord;
  discrepancies : list Discrepancy
}.

Section Pipeline.
Context (cfg : Config) (src : Sources).

(** Modelled from the spec: SourceCollector.  Every registered field has
    an entry per source, also when the source returned nothing. *)
Definition candidate (pid : nat) (f : string) (s : Source) : FieldCandidate :=
  {| field_name := f;
     source := s;
     raw_value := src s pid f;
     normalized_value := src s pid f ≫= normalize cfg f |}.

(** Modelled from the spec: the candidates of one field, one per source
    queried. *)
Definition candidates (pid : nat) (f : string) : list FieldCandidate :=
  candidate pid f <$> [import; registry; enrichment].

(** Modelled from the spec: [collect(provider_id)], the candidates of
    every registered field. *)
Definition collect (pid : nat) : list (string * list FieldCandidate) :=
  (λ f, (f, candidates pid f)) <$> fields cfg.

(** Modelled from the spec: a source is present when its raw value is
    not absent; an unparseable candidate is present but takes no part in
    the comparison. *)
Definition present (c : FieldCandidate) : bool :=
  bool_decide (is_Some (raw_value c)).

(** Modelled from the spec: the values that are compared, the
    normalized values of the present sources, "unparseable (null)
    candidates are excluded from comparison". *)
Definition compared_values (cs : list FieldCandidate) : list string :=
  omap normalized_value (base.filter (λ c, present c = true) cs).

(** Modelled from the spec: "all normalized values equal". *)
Definition all_equal (vs : list string) : bool :=
  match vs with
  | [] => true
  | v :: rest => forallb (λ w, bool_decide (w = v)) rest
  end.

(** Modelled from the spec: the reconciler's selection rule, "the
    candidate from the highest-trust present source (registry >
    enrichment > import)", falling back to the next source with a valid
    value when the chosen one is unparseable. *)
Definition by_trust (cs : list FieldCandidate) : list FieldCandidate :=
  base.filter (λ c, present c = true)
    (base.filter (λ c, source c = registry) cs
     ++ base.filter (λ c, source c = enrichment) cs
     ++ base.filter (λ c, source c = import) cs)%list.

(** Modelled from the spec: the selected candidate, the first by trust
    with a valid value, else the first by trust. *)
Definition select (cs : list FieldCandidate) : option FieldCandidate :=
  match base.filter (λ c, is_Some (normalized_value c)) (by_trust cs) with
  | c :: _ => Some c
  | [] => head (by_trust cs)
  end.

(** Modelled from the spec: the final value of a field, the value of the
    selected candidate. *)
Definition selected_value (cs : list FieldCandidate) : option string :=
  select cs ≫= raw_value.

(** Modelled from the spec: the "count of sources agreeing with the
    eventual final value", the present sources whose normalized value is
    that of the selected candidate; an unparseable candidate never
    agrees. *)
Definition agreeing (cs : list FieldCandidate) : nat :=
  match select cs ≫= normalized_value with
  | Some v =>
      length (base.filter
                (λ c, present c = true ∧ normalized_value c = Some v) cs)
  | None => 0%nat
  end.

(** Modelled from the spec: risk "high if confidence < 60, medium if
    60-79, low if >= 80". *)
Definition risk_of (confidence : Z) : Risk :=
  if bool_decide (confidence < 60) then high
  else if bool_decide (confidence < 80) then medium
  else low.

(** Modelled from the spec: DiscrepancyDetector.  The spec names the
    risk in the first and the last case only; the threshold rule is used
    in the others (it agrees on the first). *)
Definition detect (cs : list FieldCandidate) : FieldOutcome :=
  match base.filter (λ c, present c = true) cs with
  | [] => {| field_confidence := 0; risk := high; has_discrepancy := false |}
  | [c] =>
      {| field_confidence := trust_weight cfg (source c);
         risk := risk_of (trust_weight cfg (source c));
         has_discrepancy := false |}
  | ps =>
      if all_equal (compared_values cs) then
        {| field_confidence := 100; risk := risk_of 100;
           has_discrepancy := false |}
      else
        let c := (Z.of_nat (agreeing cs) * 100) `div` Z.of_nat (length ps) in
        {| field_confidence := c; risk := risk_of c; has_discrepancy := true |}
  end.

(** Modelled from the spec: ConfidenceScorer, the weighted mean of the
    field confidences as an integer (rounded down; [0] when the weights
    sum to [0]) and the status table. *)
Definition score (outcomes : list (string * FieldOutcome)) : Z :=
  let total := foldr (λ fo acc, weight cfg fo.1 + acc) 0 outcomes in
  let sum :=
    foldr (λ fo acc, weight cfg fo.1 * field_confidence fo.2 + acc) 0 outcomes in
  if bool_decide (total = 0) then 0 else sum `div` total.

(** Modelled from the spec: the status table of the scorer; in the
    review band, "review_recommended when any single field risk=high;
    needs_review otherwise". *)
Definition status_of (s : Z) (outcomes : list (string * FieldOutcome))
  : ValidationStatus :=
  if bool_decide (80 ≤ s) then validated
  else if bool_decide (60 ≤ s) then
    if existsb (λ fo, bool_decide (risk fo.2 = high)) outcomes
    then review_recommended else needs_review
  else high_risk.

(** Modelled from the spec: the open discrepancy of a
    (provider_id, field_name), the row a revalidation updates. *)
Definition open_for (pid : nat) (f : string) (d : Discrepancy) : bool :=
  bool_decide (status d = open ∧ provider_id d = pid ∧ field d = f).

(** Modelled from the spec: the value a source gave, as stored in
    import_value, registry_value and enrichment_value. *)
Definition raw_of (s : Source) (cs : list FieldCandidate) : option string :=
  head (base.filter (λ c, source c = s) cs) ≫= raw_value.

(** Modelled from the spec: the update in place of an open row, "same
    id": the values of this run are written over [d]; id, status, notes
    and timestamps stay. *)
Definition refresh (cs : list FieldCandidate) (o : FieldOutcome)
    (d : Discrepancy) : Discrepancy :=
  {| id := id d;
     provider_id := provider_id d;
     field := field d;
     import_value := raw_of import cs;
     registry_value := raw_of registry cs;
     enrichment_value := raw_of enrichment cs;
     final_value := selected_value cs;
     confidence := field_confidence o;
     risk_level := risk o;
     status := status d;
     notes := notes d;
     created_at := created_at d;
     resolved_at := resolved_at d |}.

(** Modelled from the spec: closing a row, "status -> resolved,
    resolved_at set, notes preserved". *)
Definition close (now : nat) (final : option string) (d : Discrepancy)
  : Discrepancy :=
  {| id := id d;
     provider_id := provider_id d;
     field := field d;
     import_value := import_value d;
     registry_value := registry_value d;
     enrichment_value := enrichment_value d;
     final_value := final;
     confidence := confidence d;
     risk_level := risk_level d;
     status := resolved;
     notes := notes d;
     created_at := created_at d;
     resolved_at := Some now |}.

(** Modelled from the spec: the id of an inserted row, one that no row
    of the table has. *)
Definition fresh_id (ds : list Discrepancy) : nat :=
  S (foldr (λ d m, id d `max` m)%nat 0%nat ds).

(** Modelled from the spec: the row a disagreement creates, "status =
    open", with the values of this run. *)
Definition new_row (now pid : nat) (f : string) (cs : list FieldCandidate)
    (o : FieldOutcome) (ds : list Discrepancy) : Discrepancy :=
  {| id := fresh_id ds;
     provider_id := pid;
     field := f;
     import_value := raw_of import cs;
     registry_value := raw_of registry cs;
     enrichment_value := raw_of enrichment cs;
     final_value := selected_value cs;
     confidence := field_confidence o;
     risk_level := risk o;
     status := open;
     notes := "";
     created_at := now;
     resolved_at := None |}.

(** Modelled from the spec: a write to the open rows of a
    (provider_id, field_name); the table invariant allows at most one. *)
Definition on_open (pid : nat) (f : string)
    (g : Discrepancy → Discrepancy) (ds : list Discrepancy) : list Discrepancy :=
  (λ d, if open_for pid f d then g d else d) <$> ds.

(** Modelled from the spec: one field of [reconcile].  A manual override
    for an open discrepancy on the field is used and closes it.
    Otherwise a disagreement updates the open row in place (same id) or,
    when there is none, inserts one; and a field without disagreement
    closes the open row rather than leaving it open. *)
Definition reconcile_field (now pid : nat) (manual_override : option string)
    (ds : list Discrepancy) (fc : string * list FieldCandidate)
  : list Discrepancy :=
  let '(f, cs) := fc in
  let o := detect cs in
  let automatic :=
    if has_discrepancy o then
      if existsb (open_for pid f) ds then on_open pid f (refresh cs o) ds
      else (ds ++ [new_row now pid f cs o ds])%list
    else on_open pid f (λ d, close now (final_value d) d) ds in
  match manual_override with
  | Some v =>
      if existsb (open_for pid f) ds then on_open pid f (close now (Some v)) ds
      else automatic
  | None => automatic
  end.

(** Modelled from the spec: [reconcile], field by field in the order of
    registration. *)
Definition reconcile (now pid : nat) (manual_override : string → option string)
    (cands : list (string * list FieldCandidate)) (ds : list Discrepancy)
  : list Discrepancy :=
  foldl (λ ds fc, reconcile_field now pid (manual_override fc.1) ds fc) ds cands.

(** A field is settled in a table when the table already holds what a
    run without override writes for it: with a disagreement, an open row
    for the field, every such row carrying the values of the run;
    without one, no open row for the field. *)
Definition settled (pid : nat) (ds : list Discrepancy)
    (fc : string * list FieldCandidate) : Prop :=
  if has_discrepancy (detect fc.2) then
    existsb (open_for pid fc.1) ds = true
    ∧ Forall (λ d, open_for pid fc.1 d = true → refresh fc.2 (detect fc.2) d = d) ds
  else Forall (λ d, open_for pid fc.1 d = false) ds.

(** Modelled from the spec: the invariant of the discrepancy table, ids
    are unique and there is "at most one open discrepancy per
    (provider_id, field_name) at any time". *)
Definition table_invariant (ds : list Discrepancy) : Prop :=
  NoDup (id <$> ds)
  ∧ ∀ pid f, (length (base.filter (λ d, open_for pid f d = true) ds) ≤ 1)%nat.

(** Two entries for the same field carry the same candidates. *)
Definition coherent (cands : list (string * list FieldCandidate)) : Prop :=
  ∀ a b, a ∈ cands → b ∈ cands → a.1 = b.1 → a = b.

(** Modelled from the spec: the per-field final values of the result. *)
Definition finalize (cands : list (string * list FieldCandidate))
  : list (string * option string) :=
  (λ fc, (fc.1, selected_value fc.2)) <$> cands.

(** Modelled from the spec: the pipeline of one run,
    collect -> detect -> score -> reconcile. *)
Definition run (now pid : nat) (st : Store) : Store * FinalizedProvider :=
  let cands := collect pid in
  let outcomes := (λ fc, (fc.1, detect fc.2)) <$> cands in
  let s := score outcomes in
  let result :=
    {| confidence_score := s;
       validation_status := status_of s outcomes;
       final_values := finalize cands |} in
  ({| providers :=
        <[pid := {| finalized := result; last_validated_at := Some now |}]>
          (providers st);
      discrepancies := reconcile now pid (λ _, None) cands (discrepancies st) |},
   result).

(** Modelled from the spec: [validateOne(provider_id, forceRevalidate)].
    An unknown provider is the per-provider error, which leaves the
    store as it was ([None]).  Without [forceRevalidate] a provider that
    has been validated is answered from its stored record;
    [forceRevalidate] "bypasses any cached confidence and recomputes
    from live source candidates". *)
Definition validateOne (now pid : nat) (forceRevalidate : bool) (st : Store)
  : option (Store * FinalizedProvider) :=
  match providers st !! pid with
  | None => None
  | Some p =>
      if negb forceRevalidate
         && negb (bool_decide (validation_status (finalized p) = pending))
      then Some (st, finalized p)
      else Some (run now pid st)
  end.

End Pipeline.

(** Modelled from the spec: [resolveDiscrepancy(id, status, notes)], the
    manual entry point; "only open -> resolved is supported", so any
    other request is refused ([None]). *)
Definition resolveDiscrepancy (now target : nat) (status' : DiscrepancyStatus)
    (notes' : string) (st : Store) : option Store :=
  match status' with
  | open => None
  | resolved =>
      if existsb (λ d, bool_decide (id d = target ∧ status d = open))
           (discrepancies st)
      then
        Some {| providers := providers st;
                discrepancies :=
                  (λ d, if bool_decide (id d = target ∧ status d = open)
                        then {| id := id d;
                                provider_id := provider_id d;
                                field := field d;
                                import_value := import_value d;
                                registry_value := registry_value d;
                                enrichment_value := enrichment_value d;
                                final_value := final_value d;
                                confidence := confidence d;
                                risk_level := risk_level d;
                                status := resolved;
                                notes := notes';
                                created_at := created_at d;
                                resolved_at := Some now |}
                        else d) <$> discrepancies st |}
      else None
  end.

End Engine.

(** ** The status vocabularies of the data model *)

(** The five provider statuses. *)
Definition provider_statuses : gset string :=
  {[ "pending"; "validated"; "needs_review"; "review_recommended"; "high_risk" ]}.

(** The two discrepancy statuses. *)
Definition discrepancy_statuses : gset string := {[ "open"; "resolved" ]}.

(** ** Manual updates and status domains, as the specification words them

    Each of these propositions says of the components what the
    specification says of the engine; Part II settles them. *)

(** "Only open -> resolved": wherever a manual update can be triggered,
    the discrepancy is open and the status asked for is resolved. *)
Definition manual_update_only_open_to_resolved `{StringToNumber} : Prop :=
  (∀ d u, u ∈ DiscrepanciesPage.offered_updates d →
          DiscrepancyList.status d = JStr "open"
          ∧ DiscrepanciesPage.update_status u = "resolved")
  ∧ (∀ updatingId disc,
        Discrepancies.review_enabled updatingId disc = true →
        Discrepancies.status disc = "open"
        ∧ Discrepancies.update_status (Discrepancies.review_request disc)
          = "resolved").

(** "status in {open, resolved}": the statuses a view declares and
    renders, and the ones its handler asks for, are the two of the data
    model. *)
Definition discrepancy_status_two_valued : Prop :=
  Discrepancies.Status = discrepancy_statuses
  ∧ dom Discrepancies.labels = discrepancy_statuses
  ∧ (∀ s, s ∈ discrepancy_statuses →
          Discrepancies.nextStatus s ∈ discrepancy_statuses).

(** "validation_status in the five values, and every handler accepts
    exactly these": badge table, status type and filter options. *)
Definition provider_status_five_valued : Prop :=
  dom ProviderTable.badges = provider_statuses
  ∧ Providers.ProviderStatus = provider_statuses
  ∧ dom Providers.labels = provider_statuses
  ∧ list_to_set (base.filter (λ o, o ≠ "all") ProvidersPage.filter_options)
    = provider_statuses.

(** ** Inputs of the worked examples *)

(** No worked example coerces a string to a number; this instance is
    there to run them. *)
Definition no_numeric_strings : StringToNumber := λ _, NaN.

Definition provider_1 : Providers.Provider :=
  {| Providers.id := "1";
     Providers.name := "Ada Moreau";
     Providers.npi := "1234567893";
     Providers.specialty := "Cardiology";
     Providers.status := JStr "validated";
     Providers.confidence := Fin 85;
     Providers.lastValidated := "2025-01-01" |}.

Definition provider_2 : Providers.Provider :=
  {| Providers.id := "2";
     Providers.name := "Bo Lindqvist";
     Providers.npi := "1987654321";
     Providers.specialty := "Not specified";
     Providers.status := JStr "pending";
     Providers.confidence := Fin 0;
     Providers.lastValidated := "2025-01-01" |}.

Definition two_providers : Providers.State :=
  {| Providers.providers := [provider_1; provider_2];
     Providers.error := JNull;
     Providers.validatingId := None |}.

(** A run that finds the provider at high risk with a score of 0. *)
Definition high_risk_zero : option Providers.ValidateResult :=
  Some {| Providers.final_results :=
            Some {| Providers.validation_status := JStr "high_risk";
                    Providers.confidence_score := JNum (Fin 0) |} |}.

(** A provider payload as the API sends it: [validation_status] set, no
    [status] property. *)
Definition validated_payload : ProviderTable.provider :=
  {| ProviderTable.id := JNum (Fin 1);
     ProviderTable.confidence_score := JNum (Fin 92);
     ProviderTable.validation_status := JStr "validated";
     ProviderTable.status := JUndefined |}.

(** A payload carrying both properties, with different values. *)
Definition two_status_payload : ProviderTable.provider :=
  {| ProviderTable.id := JNum (Fin 2);
     ProviderTable.confidence_score := JNum (Fin 88);
     ProviderTable.validation_status := JStr "validated";
     ProviderTable.status := JStr "pending" |}.

Definition open_discrepancy : Discrepancies.Discrepancy :=
  {| Discrepancies.id := "7";
     Discrepancies.providerId := "1";
     Discrepancies.providerName := "Ada Moreau";
     Discrepancies.type := "address";
     Discrepancies.severity := "high";
     Discrepancies.description := "";
     Discrepancies.detectedDate := "2025-01-01";
     Discrepancies.status := "open" |}.

Definition one_discrepancy : Discrepancies.State :=
  {| Discrepancies.discrepancies := [open_discrepancy];
     Discrepancies.error := JNull;
     Discrepancies.updatingId := None |}.

(** The engine on the specification's scenarios A and B: phone numbers
    that normalize to the same digits, addresses that differ, no
    enrichment. *)
Definition digits (s : string) : string :=
  String.string_of_list_ascii
    (base.filter (λ c, (48 ≤ nat_of_ascii c ≤ 57)%nat)
       (String.list_ascii_of_string s)).

Definition scenario_cfg : Engine.Config :=
  {| Engine.normalize :=
       λ f raw,
         if bool_decide (f = "phone") then
           if bool_decide (String.length (digits raw) = 10%nat)
           then Some (digits raw) else None
         else Some raw;
     Engine.fields := ["phone"; "address"];
     Engine.weight := λ _, 1;
     Engine.trust_weight :=
       λ s, match s with
            | Engine.registry => 90
            | Engine.enrichment => 75
            | Engine.import => 60
            end |}.

Definition scenario_src : Engine.Sources :=
  λ s _ f,
    match s with
    | Engine.import =>
        if bool_decide (f = "phone") then Some "(555) 123-4567"
        else Some "123 Main St"
    | Engine.registry =>
        if bool_decide (f = "phone") then Some "555-123-4567"
        else Some "456 Oak Ave"
    | Engine.enrichment => None
    end.

(** One imported provider, not yet validated, and an empty discrepancy
    table. *)
Definition scenario_store : Engine.Store :=
  {| Engine.providers :=
       {[ 1%nat :=
            {| Engine.finalized :=
                 {| Engine.confidence_score := 0;
                    Engine.validation_status := Engine.pending;
                    Engine.final_values := [] |};
               Engine.last_validated_at := None |} ]};
     Engine.discrepancies := [] |}.

Definition scenario_first_run : Engine.Store * Engine.FinalizedProvider :=
  Engine.run scenario_cfg scenario_src 10 1 scenario_store.

(** ** String methods shared by the components *)

Module Text.

(** [String.prototype.toUpperCase] on the ASCII letters; other code
    units are left as they are (field and status names are ASCII). *)
Definition upper_ascii (c : ascii) : ascii :=
  let n := nat_of_ascii c in
  if bool_decide (97 ≤ n ≤ 122)%nat then ascii_of_nat (n - 32) else c.

Fixpoint toUpperCase (s : string) : string :=
  match s with
  | EmptyString => EmptyString
  | String c rest => String (upper_ascii c) (toUpperCase rest)
  end.

(** [s.replace(a, b)] for one-character strings [a] and [b]: only the
    first [a] is replaced. *)
Fixpoint replace_first (a b : ascii) (s : string) : string :=
  match s with
  | EmptyString => EmptyString
  | String c rest =>
      if bool_decide (c = a) then String b rest
      else String c (replace_first a b rest)
  end.

(** [s.includes(sub)] *)
Fixpoint includes (s sub : string) : bool :=
  if String.prefix sub s then true
  else match s with
       | EmptyString => false
       | String _ rest => includes rest sub
       end.

(** The number of occurrences of a character. *)
Fixpoint count_char (a : ascii) (s : string) : nat :=
  match s with
  | EmptyString => 0%nat
  | String c rest =>
      ((if bool_decide (c = a) then 1 else 0) + count_char a rest)%nat
  end.

(** [a <= b] against an integer literal; false on [NaN]. *)
Definition le (a : number) (b : Z) : bool :=
  match a with
  | Fin z => bool_decide (z ≤ b)
  | NaN => false
  end.

End Text.

(** ** pages/Providers.tsx: search, status filter and its button *)

Module ProvidersFilter.

Import Text.

Definition matchesSearch (search : string) (p : Providers.Provider) : bool :=
  bool_decide (search = "")
  || includes (Discrepancies.toLowerCase (Providers.name p))
       (Discrepancies.toLowerCase search)
  || includes (Discrepancies.toLowerCase (Providers.npi p))
       (Discrepancies.toLowerCase search)
  || includes (Discrepancies.toLowerCase (Providers.specialty p))
       (Discrepancies.toLowerCase search).

Definition matchesStatus (statusFilter : string) (p : Providers.Provider) : bool :=
  bool_decide (statusFilter = "all")
  || strict_eq (Providers.status p) (JStr statusFilter).

(** The memoized [filteredProviders], as a function of what it depends
    on. *)
Definition filteredProviders
    (providers : list Providers.Provider) (search statusFilter : string)
  : list Providers.Provider :=
  base.filter
    (λ p, matchesSearch search p && matchesStatus statusFilter p = true)
    providers.

(** The updater of the Status button:
    [prev === 'all' ? 'validated' : 'all']. *)
Definition toggleStatus (prev : string) : string :=
  if bool_decide (prev = "all") then "validated" else "all".

(** The footer: "Showing n of m providers". *)
Definition showing
    (providers : list Providers.Provider) (search statusFilter : string)
  : nat * nat :=
  (length (filteredProviders providers search statusFilter), length providers).

End ProvidersFilter.

(** ** pages/Discrepancies.tsx: search, filters and their buttons *)

Module DiscrepanciesFilter.

Import Text.

Definition matchesSearch (search : string) (d : Discrepancies.Discrepancy) : bool :=
  bool_decide (search = "")
  || includes (Discrepancies.toLowerCase (Discrepancies.id d))
       (Discrepancies.toLowerCase search)
  || includes (Discrepancies.toLowerCase (Discrepancies.providerId d))
       (Discrepancies.toLowerCase search)
  || includes (Discrepancies.toLowerCase (Discrepancies.providerName d))
       (Discrepancies.toLowerCase search)
  || includes (Discrepancies.toLowerCase (Discrepancies.type d))
       (Discrepancies.toLowerCase search).

Definition matchesSeverity
    (severityFilter : string) (d : Discrepancies.Discrepancy) : bool :=
  bool_decide (severityFilter = "all")
  || bool_decide (Discrepancies.severity d = severityFilter).

Definition matchesStatus
    (statusFilter : string) (d : Discrepancies.Discrepancy) : bool :=
  bool_decide (statusFilter = "all")
  || bool_decide (Discrepancies.status d = statusFilter).

(** The memoized [filtered], as a function of what it depends on. *)
Definition filtered
    (discrepancies : list Discrepancies.Discrepancy)
    (search severityFilter statusFilter : string)
  : list Discrepancies.Discrepancy :=
  base.filter
    (λ d, matchesSearch search d && matchesSeverity severityFilter d
          && matchesStatus statusFilter d = true)
    discrepancies.

(** The updaters of the Severity and Status buttons. *)
Definition toggleSeverity (prev : string) : string :=
  if bool_decide (prev = "all") then "high" else "all".

Definition toggleStatus (prev : string) : string :=
  if bool_decide (prev = "all") then "open" else "all".

End DiscrepanciesFilter.

(** ** components/DiscrepancyList.jsx: the header of a card *)

Module DiscrepancyCard.

Import Text.

Definition badges : gmap string ProviderTable.Badge :=
  list_to_map
    [ ("high", {| ProviderTable.class := "badge-danger";
                  ProviderTable.text := "High Risk" |});
      ("medium", {| ProviderTable.class := "badge-warning";
                    ProviderTable.text := "Medium Risk" |});
      ("low", {| ProviderTable.class := "badge-info";
                 ProviderTable.text := "Low Risk" |}) ].

Definition badges_medium : ProviderTable.Badge :=
  {| ProviderTable.class := "badge-warning"; ProviderTable.text := "Medium Risk" |}.

(** [badges[riskLevel] || badges.medium], then the span. *)
Definition getRiskBadge (riskLevel : jsval) : ProviderTable.Span :=
  match get badges (ToString riskLevel) with
  | Own b => ProviderTable.render_badge b
  | Inherited =>
      {| ProviderTable.className := "badge undefined";
         ProviderTable.children := "" |}
  | Missing => ProviderTable.render_badge badges_medium
  end.

(** The title of a card:
    [discrepancy.field_name.replace('_', ' ').toUpperCase()]; the chart
    of the reports page names a status the same way. *)
Definition heading (field_name : string) : string :=
  toUpperCase (replace_first "_" " " field_name).

(** The provider line of a card:
    [providers[discrepancy.provider_id] || `Provider ID: ${..}`].  An
    inherited property is an object, which is no text. *)
Definition provider_label (providers : gmap string jsval) (provider_id : jsval)
  : property jsval :=
  match get providers (ToString provider_id) with
  | Own v =>
      Own (or v (JStr ("Provider ID: " +:+ ToString provider_id)))
  | Inherited => Inherited
  | Missing => Own (JStr ("Provider ID: " +:+ ToString provider_id))
  end.

End DiscrepancyCard.

(** ** pages/DiscrepanciesPage.jsx: the provider lookup map *)

Module DiscrepanciesData.

(** The fields of a provider payload that [loadData] reads. *)
Record provider : Type := {
  id : jsval;
  first_name : jsval;
  last_name : jsval;
  organization_name : jsval
}.

(** [(p.first_name && p.last_name) ? `${p.first_name} ${p.last_name}`
     : (p.organization_name || 'Unknown')] *)
Definition name (p : provider) : jsval :=
  if truthy (first_name p) && truthy (last_name p)
  then JStr (ToString (first_name p) +:+ " " +:+ ToString (last_name p))
  else or (organization_name p) (JStr "Unknown").

(** [providerMap[key] = value] on an object literal, for a value that
    is no object: the key [__proto__] is the prototype accessor, which
    ignores such a value; any other key becomes an own property. *)
Definition assign (providerMap : gmap string jsval) (key : string) (value : jsval)
  : gmap string jsval :=
  if bool_decide (key = "__proto__") then providerMap
  else <[key := value]> providerMap.

(** [provData?.forEach(p => { ...; providerMap[p.id] = name })], from
    the empty object. *)
Definition providerMap (provData : list provider) : gmap string jsval :=
  foldl (λ m p, assign m (ToString (id p)) (name p)) ∅ provData.

(** The arguments [loadDiscrepancies] hands to
    [discrepancyAPI.getDiscrepancies]:
    [(null, statusFilter === 'all' ? null : statusFilter)]. *)
Definition loadDiscrepancies_args (statusFilter : string) : jsval * jsval :=
  (JNull, if bool_decide (statusFilter = "all") then JNull else JStr statusFilter).

End DiscrepanciesData.

(** ** services/api.js *)

Module API.

(** The query parameters of [discrepancyAPI.getDiscrepancies]:
    [if (providerId) params.provider_id = providerId;
     if (status) params.status = status]. *)
Definition getDiscrepancies_params (providerId status : jsval)
  : gmap string jsval :=
  let params := ∅ in
  let params :=
    if truthy providerId then <["provider_id" := providerId]> params
    else params in
  if truthy status then <["status" := status]> params else params.

End API.

(** ** pages/ReportsPage.jsx: the data of the two charts *)

Module ReportsPage.

Import Text.

(** The property the [reduce] counts a provider under: its shown
    status, as a key. *)
Definition status_key (provider : ProviderTable.provider) : string :=
  ToString (ProviderTable.shown_status provider).

(** One step of the [reduce] behind [statusData]:
    [acc[status] = (acc[status] || 0) + 1].  The counts are the own
    properties of [acc]; a status that names an inherited property adds
    [1] to a function, which is no count: [None]. *)
Definition count_status (acc : gmap string Z) (provider : ProviderTable.provider)
  : option (gmap string Z) :=
  let status := status_key provider in
  match get acc status with
  | Own n => Some (<[status := (if bool_decide (n = 0) then 0 else n) + 1]> acc)
  | Missing => Some (<[status := 1]> acc)
  | Inherited => None
  end.

Definition statusData (providers : list ProviderTable.provider)
  : option (gmap string Z) :=
  foldl (λ acc provider, acc ≫= λ acc, count_status acc provider)
        (Some ∅) providers.

(** The number of providers shown under a status. *)
Definition counted (key : string) (providers : list ProviderTable.provider) : nat :=
  length (base.filter (λ p, status_key p = key) providers).

(** The five ranges of the histogram, in order: 0-20, 21-40, 41-60,
    61-80, 81-100. *)
Definition ranges : list string :=
  [ "0-20"; "21-40"; "41-60"; "61-80"; "81-100" ].

Section WithNumber.
Context `{StringToNumber}.

(** The index of the range one provider is counted in. *)
Definition bucket (provider : ProviderTable.provider) : nat :=
  let score :=
    ToNumber (or (ProviderTable.confidence_score provider) (JNum (Fin 0))) in
  if le score 20 then 0
  else if le score 40 then 1
  else if le score 60 then 2
  else if le score 80 then 3
  else 4.

(** [providers.forEach(..)] over the five counters, all [0] at first. *)
Definition confidenceRanges (providers : list ProviderTable.provider) : list Z :=
  foldl (λ counts provider, alter (λ n, n + 1) (bucket provider) counts)
        [0; 0; 0; 0; 0] providers.

(** [confidenceHistogramData]: each range with its count. *)
Definition confidenceHistogramData (providers : list ProviderTable.provider)
  : list (string * Z) :=
  zip ranges (confidenceRanges providers).

End WithNumber.

End ReportsPage.

(** ** pages/UploadPage.jsx *)

Module UploadPage.

(** What the page reads of a selected [File]. *)
Record File : Type := { name : string; type : string }.

Record State : Type := {
  csvFile : option File;
  pdfFile : option File;
  uploading : bool;
  message : jsval;
  messageType : option string
}.

Definition initial : State :=
  {| csvFile := None; pdfFile := None; uploading := false;
     message := JNull; messageType := None |}.

(** [handleCSVUpload]; [file] is [e.target.files[0]], [None] when the
    selection is empty. *)
Definition handleCSVUpload (file : option File) (st : State) : State :=
  match file with
  | Some f =>
      if bool_decide (type f = "text/csv") then
        {| csvFile := Some f; pdfFile := pdfFile st; uploading := uploading st;
           message := message st; messageType := messageType st |}
      else
        {| csvFile := csvFile st; pdfFile := pdfFile st;
           uploading := uploading st;
           message := JStr "Please select a valid CSV file";
           messageType := Some "error" |}
  | None =>
      {| csvFile := csvFile st; pdfFile := pdfFile st;
         uploading := uploading st;
         message := JStr "Please select a valid CSV file";
         messageType := Some "error" |}
  end.

Definition handlePDFUpload (file : option File) (st : State) : State :=
  match file with
  | Some f =>
      if bool_decide (type f = "application/pdf") then
        {| csvFile := csvFile st; pdfFile := Some f; uploading := uploading st;
           message := message st; messageType := messageType st |}
      else
        {| csvFile := csvFile st; pdfFile := pdfFile st;
           uploading := uploading st;
           message := JStr "Please select a valid PDF file";
           messageType := Some "error" |}
  | None =>
      {| csvFile := csvFile st; pdfFile := pdfFile st;
         uploading := uploading st;
         message := JStr "Please select a valid PDF file";
         messageType := Some "error" |}
  end.

(** The requests a submit sends, in order. *)
Inductive Request : Type :=
| uploadCSV (file : File)
| uploadPDF (file : File).

(** How the server answers the requests of a submit.  [csv] is the
    answer to the CSV upload: rejected, with
    [error.response?.data?.detail], or resolved, to nothing ([None]) or
    to a result with its [uploaded] property.  [pdf] is the answer to
    the PDF upload when one is sent: [Some detail] when rejected. *)
Record Answer : Type := {
  csv : jsval + option jsval;
  pdf : option jsval
}.

(** [handleSubmit], from the state before the submit to the requests
    sent and the state once the [finally] block has run.  Reading
    [uploaded] off a missing result throws, which the [catch] reports
    like a rejection without detail. *)
Definition handleSubmit (answer : Answer) (st : State) : list Request * State :=
  match csvFile st with
  | None =>
      ([], {| csvFile := csvFile st; pdfFile := pdfFile st;
              uploading := uploading st;
              message := JStr "Please select a CSV file to upload";
              messageType := Some "error" |})
  | Some file =>
      let rejected detail :=
        {| csvFile := csvFile st; pdfFile := pdfFile st; uploading := false;
           message := or detail (JStr "Error uploading files");
           messageType := Some "error" |} in
      let resolved uploaded :=
        {| csvFile := None; pdfFile := None; uploading := false;
           message :=
             JStr ("Successfully uploaded " +:+ ToString uploaded +:+ " providers");
           messageType := Some "success" |} in
      match csv answer with
      | inl detail => ([uploadCSV file], rejected detail)
      | inr csvResult =>
          let requests :=
            uploadCSV file :: from_option (λ f, [uploadPDF f]) [] (pdfFile st) in
          match pdfFile st, pdf answer with
          | Some _, Some detail => (requests, rejected detail)
          | _, _ =>
              match csvResult with
              | Some uploaded => (requests, resolved uploaded)
              | None => (requests, rejected JUndefined)
              end
          end
      end
  end.

(** What a user does on the page. *)
Inductive Event : Type :=
| SelectCSV (file : option File)
| SelectPDF (file : option File)
| Submit (answer : Answer).

Definition step (st : State) (e : Event) : State :=
  match e with
  | SelectCSV file => handleCSVUpload file st
  | SelectPDF file => handlePDFUpload file st
  | Submit answer => (handleSubmit answer st).2
  end.

Definition after (events : list Event) : State := foldl step initial events.

(** The selected files have the types their inputs ask for. *)
Definition files_typed (st : State) : Prop :=
  from_option (λ f, type f = "text/csv") True (csvFile st)
  ∧ from_option (λ f, type f = "application/pdf") True (pdfFile st).

(** A request carries a file of its kind. *)
Definition request_typed (r : Request) : Prop :=
  match r with
  | uploadCSV f => type f = "text/csv"
  | uploadPDF f => type f = "application/pdf"
  end.

End UploadPage.

(** ** pages/Providers.tsx: the name of a loaded provider *)

Module ProvidersLoad.

(** The fields of a provider payload that the name is built from. *)
Record payload : Type := {
  full_name : jsval;
  first_name : jsval;
  last_name : jsval
}.

(** [[p.first_name, p.last_name].filter(Boolean).join(' ')] *)
Definition joined (p : payload) : string :=
  String.concat " "
    (ToString <$> base.filter (λ v, truthy v = true) [first_name p; last_name p]).

(** The [name] that [loadProviders] maps a payload to:
    [p.full_name ?? [..].filter(Boolean).join(' ') ?? 'Unknown provider']. *)
Definition name (p : payload) : jsval :=
  coalesce (coalesce (full_name p) (JStr (joined p))) (JStr "Unknown provider").

End ProvidersLoad.

(** ** pages/ProvidersPage.jsx: loading and validating *)

Module ProvidersPageState.

Record Toast : Type := { message : jsval; type : string }.

Record State : Type := {
  providers : list ProviderTable.provider;
  loading : bool;
  error : jsval;
  validatingId : jsval;
  toast : option Toast
}.

(** [loadProviders()], to the state once the [finally] block has run.
    The answer of [providerAPI.getProviders()] is a rejection, with
    [err.response?.data?.detail], or the data, [None] when it is null. *)
Definition loadProviders
    (answer : jsval + option (list ProviderTable.provider)) (st : State) : State :=
  match answer with
  | inr data =>
      {| providers := default [] data; loading := false; error := JNull;
         validatingId := validatingId st; toast := toast st |}
  | inl detail =>
      {| providers := []; loading := false;
         error := or detail (JStr "Failed to load providers");
         validatingId := validatingId st; toast := toast st |}
  end.

(** [showToast(message, type)]; the timer that clears the toast three
    seconds later is left out. *)
Definition showToast (message : jsval) (type : string) (st : State) : State :=
  {| providers := providers st; loading := loading st; error := error st;
     validatingId := validatingId st;
     toast := Some {| message := message; type := type |} |}.

Definition setValidatingId (id : jsval) (st : State) : State :=
  {| providers := providers st; loading := loading st; error := error st;
     validatingId := id; toast := toast st |}.

(** [handleValidate(providerId)], to the state once the [finally] block
    has run.  [validated] is the answer of
    [validationAPI.validateProvider(providerId, null, true)], a
    rejection with its detail or a success; [reloaded] is the answer of
    the reload that follows a success. *)
Definition handleValidate
    (providerId : jsval) (validated : jsval + unit)
    (reloaded : jsval + option (list ProviderTable.provider)) (st : State) : State :=
  let st := setValidatingId providerId st in
  let st :=
    match validated with
    | inr _ =>
        loadProviders reloaded
          (showToast (JStr "Provider validated successfully") "success" st)
    | inl detail =>
        showToast (or detail (JStr "Failed to validate provider")) "error" st
    end in
  setValidatingId JNull st.

End ProvidersPageState.

(** ** pages/Providers.tsx: the confidence bar on any number

    [Providers.ConfidenceBar] above takes the integer scores of the data
    model.  The component's parameter is a [number]; this module takes
    every number: a finite one by its exact value, a rational, the two
    infinities and [NaN]. *)

Module Numeric.

Inductive number : Type :=
| Finite (q : QArith_base.Q)
| PosInfinity
| NegInfinity
| NotANumber.

(** An integer score as a number. *)
Definition of_integer (z : Z) : number := Finite (QArith_base.inject_Z z).

(** [a >= b] against an integer literal; false on [NaN]. *)
Definition ge (a : number) (b : Z) : bool :=
  match a with
  | Finite q => QArith_base.Qle_bool (QArith_base.inject_Z b) q
  | PosInfinity => true
  | NegInfinity => false
  | NotANumber => false
  end.

Definition Math_min (a b : number) : number :=
  match a, b with
  | NotANumber, _ | _, NotANumber => NotANumber
  | NegInfinity, _ | _, NegInfinity => NegInfinity
  | PosInfinity, x | x, PosInfinity => x
  | Finite x, Finite y => if QArith_base.Qle_bool x y then a else b
  end.

Definition Math_max (a b : number) : number :=
  match a, b with
  | NotANumber, _ | _, NotANumber => NotANumber
  | PosInfinity, _ | _, PosInfinity => PosInfinity
  | NegInfinity, x | x, NegInfinity => x
  | Finite x, Finite y => if QArith_base.Qle_bool x y then b else a
  end.

Definition half : QArith_base.Q := QArith_base.Qmake 1 2.

(** The largest integer that is not above [q]. *)
Definition floor (q : QArith_base.Q) : Z :=
  QArith_base.Qnum q `div` Z.pos (QArith_base.Qden q).

(** The integer [toFixed(0)] prints for a number that is not negative:
    the nearest one, the larger of the two at a half. *)
Definition nearest (q : QArith_base.Q) : Z := floor (QArith_base.Qplus q half).

(** [x.toFixed(0)]: a negative number is printed as a minus sign and the
    digits of its opposite (JavaScript switches to exponent notation
    from [10^21] on; the bar prints nothing above 100). *)
Definition toFixed0 (x : number) : string :=
  match x with
  | Finite q =>
      if QArith_base.Qle_bool (QArith_base.inject_Z 0) q then pretty (nearest q)
      else "-" +:+ pretty (nearest (QArith_base.Qopp q))
  | PosInfinity => "Infinity"
  | NegInfinity => "-Infinity"
  | NotANumber => "NaN"
  end.

Definition safeWidth (confidence : number) : number :=
  Math_max (of_integer 0) (Math_min (of_integer 100) confidence).

(** [ConfidenceBar]: the colour class of the bar, the number [w] of its
    style [width: `${w}%`] and the text printed next to it. *)
Record Bar : Type := { color : string; width : number; percentage : string }.

Definition ConfidenceBar (confidence : number) : Bar :=
  {| color :=
       if ge confidence 90 then "bg-green-500"
       else if ge confidence 75 then "bg-amber-500"
       else "bg-red-500";
     width := safeWidth confidence;
     percentage := toFixed0 (safeWidth confidence) +:+ "%" |}.

(** "The bar renders a width and a displayed percentage equal to
    min(100, max(0, c)), within 0-100", for every number [c]: the width
    is a number [w] from 0 to 100, the clamp of [c], and the percentage
    printed stands for [w] too, whatever way [value_of] a printed text
    is read as a number. *)
Definition bar_shows_the_clamp : Prop :=
  ∃ value_of : string → QArith_base.Q,
    ∀ c : number,
      ∃ w : QArith_base.Q,
        width (ConfidenceBar c) = Finite w
        ∧ Finite w = Math_min (of_integer 100) (Math_max (of_integer 0) c)
        ∧ QArith_base.Qle (QArith_base.inject_Z 0) w
        ∧ QArith_base.Qle w (QArith_base.inject_Z 100)
        ∧ QArith_base.Qeq (value_of (percentage (ConfidenceBar c))) w.

End Numeric.

(** ** Text that is ASCII *)

(** Every character of the text is an ASCII character, the text on
    which the case functions of this development are those of
    JavaScript. *)
Definition ascii_only (s : string) : Prop :=
  Forall (λ c, (nat_of_ascii c < 128)%nat) (String.list_ascii_of_string s).

(* ===================================================================== *)
(** * Part II: lemmas and theorems *)
(* ===================================================================== *)

(** ** Confidence colours *)

Section Colours.
Context `{StringToNumber}.

(** The two [getConfidenceColor] functions follow the threshold table on
    every integer score. *)
Lemma ProviderTable_color_on_table (s : Z) :
  color_band (ProviderTable.getConfidenceColor (JNum (Fin s)))
  = Some (threshold_band s).
Proof.
  unfold ProviderTable.getConfidenceColor, threshold_band; simpl.
  repeat case_bool_decide; try lia; reflexivity.
Qed.

Lemma DiscrepancyList_color_on_table (s : Z) :
  color_band (DiscrepancyList.getConfidenceColor (JNum (Fin s)))
  = Some (threshold_band s).
Proof.
  unfold DiscrepancyList.getConfidenceColor, threshold_band; simpl.
  repeat case_bool_decide; try lia; reflexivity.
Qed.

(** [ConfidenceBar] draws its boundaries at 90 and 75. *)
Lemma ConfidenceBar_bands (s : Z) :
  color_band (Providers.color (Providers.ConfidenceBar (Fin s)))
  = Some (if bool_decide (90 ≤ s) then BandValidated
          else if bool_decide (75 ≤ s) then BandReview
          else BandHighRisk).
Proof.
  unfold Providers.ConfidenceBar; simpl.
  repeat case_bool_decide; try lia; reflexivity.
Qed.

(** A score or a count of [0] is shown as [0], and a missing one too:
    [provider.confidence_score || 0]. *)
Lemma ProviderTable_score_zero (p : ProviderTable.provider) :
  ProviderTable.confidence_score p = JNum (Fin 0) →
  ProviderTable.score (ProviderTable.render_row p) = JNum (Fin 0).
Proof. intros Hp. simpl. by rewrite Hp. Qed.

(** C1: the colour classification of a confidence score is meant to
    follow the threshold table (80 and 60) in every component.  The two
    [getConfidenceColor] functions do; [ConfidenceBar] does not: a score
    of 85, validated by the table and green in the provider table, is
    drawn amber, and a score of 70, in the review band, is drawn red. *)
Theorem C1_ConfidenceBar_leaves_the_table :
  threshold_band 85 = BandValidated
  ∧ color_band (ProviderTable.getConfidenceColor (JNum (Fin 85)))
    = Some BandValidated
  ∧ color_band (Providers.color (Providers.ConfidenceBar (Fin 85)))
    = Some BandReview
  ∧ threshold_band 70 = BandReview
  ∧ color_band (DiscrepancyList.getConfidenceColor (JNum (Fin 70)))
    = Some BandReview
  ∧ color_band (Providers.color (Providers.ConfidenceBar (Fin 70)))
    = Some BandHighRisk.
Proof. repeat split; reflexivity. Qed.

End Colours.

(** ** The confidence bar *)

Lemma safeWidth_clamp (c : Z) :
  Providers.safeWidth (Fin c) = Fin (100 `min` (0 `max` c)).
Proof. unfold Providers.safeWidth; simpl. f_equal. lia. Qed.

(** [NaN] is not clamped: it travels through [Math.min] and [Math.max]. *)
Lemma safeWidth_NaN : Providers.safeWidth NaN = NaN.
Proof. reflexivity. Qed.

(** On the integer scores: for every integer confidence [c], also below
    0 and above 100, the bar's width and the printed percentage are
    [min(100, max(0, c))], which lies within 0-100. *)
Lemma ConfidenceBar_clamps_integers (c : Z) :
  let shown := 100 `min` (0 `max` c) in
  Providers.safeWidth (Fin c) = Fin shown
  ∧ Providers.width (Providers.ConfidenceBar (Fin c)) = pretty shown +:+ "%"
  ∧ Providers.percentage (Providers.ConfidenceBar (Fin c)) = pretty shown +:+ "%"
  ∧ 0 ≤ shown ≤ 100.
Proof.
  intros shown.
  assert (Hs : Providers.safeWidth (Fin c) = Fin shown) by apply safeWidth_clamp.
  unfold Providers.ConfidenceBar, toFixed0.
  cbn [Providers.width Providers.percentage]. rewrite Hs.
  repeat split; try reflexivity; subst shown; lia.
Qed.

(** ** The confidence bar on any number *)

Lemma Qle_bool_100_0 (q : QArith_base.Q) :
  QArith_base.Qle_bool (QArith_base.inject_Z 100) q = true →
  QArith_base.Qle_bool (QArith_base.inject_Z 0) q = true.
Proof.
  rewrite !QArith_base.Qle_bool_iff. intros H100.
  eapply QArith_base.Qle_trans; [|exact H100]. by vm_compute.
Qed.

(** [Math.max(0, Math.min(100, q))] by cases. *)
Lemma Numeric_safeWidth_cases (q : QArith_base.Q) :
  Numeric.safeWidth (Numeric.Finite q)
  = if QArith_base.Qle_bool (QArith_base.inject_Z 100) q
    then Numeric.of_integer 100
    else if QArith_base.Qle_bool (QArith_base.inject_Z 0) q
         then Numeric.Finite q
         else Numeric.of_integer 0.
Proof.
  unfold Numeric.safeWidth, Numeric.of_integer, Numeric.Math_min.
  by destruct (QArith_base.Qle_bool (QArith_base.inject_Z 100) q).
Qed.

(** The code takes the minimum first and the maximum second; on a finite
    number that is the clamp in the other order too. *)
Lemma Numeric_clamp_order (q : QArith_base.Q) :
  Numeric.safeWidth (Numeric.Finite q)
  = Numeric.Math_min (Numeric.of_integer 100)
      (Numeric.Math_max (Numeric.of_integer 0) (Numeric.Finite q)).
Proof.
  rewrite Numeric_safeWidth_cases.
  unfold Numeric.of_integer, Numeric.Math_max.
  destruct (QArith_base.Qle_bool (QArith_base.inject_Z 100) q) eqn:H100.
  - rewrite (Qle_bool_100_0 q H100). unfold Numeric.Math_min. by rewrite H100.
  - destruct (QArith_base.Qle_bool (QArith_base.inject_Z 0) q) eqn:H0.
    + unfold Numeric.Math_min. by rewrite H100.
    + reflexivity.
Qed.

Lemma Numeric_safeWidth_range (q : QArith_base.Q) :
  ∃ w, Numeric.safeWidth (Numeric.Finite q) = Numeric.Finite w
       ∧ QArith_base.Qle (QArith_base.inject_Z 0) w
       ∧ QArith_base.Qle w (QArith_base.inject_Z 100).
Proof.
  rewrite Numeric_safeWidth_cases.
  destruct (QArith_base.Qle_bool (QArith_base.inject_Z 100) q) eqn:H100.
  - eexists. split; [reflexivity|]. split; by vm_compute.
  - destruct (QArith_base.Qle_bool (QArith_base.inject_Z 0) q) eqn:H0.
    + exists q. split; [done|]. split; [by apply QArith_base.Qle_bool_iff|].
      apply QArith_base.Qlt_le_weak, QArith_base.Qnot_le_lt. intros Hle.
      apply QArith_base.Qle_bool_iff in Hle. congruence.
    + eexists. split; [reflexivity|]. split; by vm_compute.
Qed.

(** The integer printed for a number from 0 to 100 is from 0 to 100 and
    within a half of the number, the larger one at a half. *)
Lemma nearest_range (w : QArith_base.Q) :
  QArith_base.Qle (QArith_base.inject_Z 0) w →
  QArith_base.Qle w (QArith_base.inject_Z 100) →
  0 ≤ Numeric.nearest w ≤ 100
  ∧ QArith_base.Qle (QArith_base.inject_Z (Numeric.nearest w))
      (QArith_base.Qplus w Numeric.half)
  ∧ QArith_base.Qlt (QArith_base.Qplus w Numeric.half)
      (QArith_base.inject_Z (Numeric.nearest w + 1)).
Proof.
  destruct w as [n d].
  unfold QArith_base.Qle, QArith_base.Qlt, Numeric.nearest, Numeric.floor,
    Numeric.half.
  simpl. rewrite Pos2Z.inj_mul, !Z.mul_1_l, !Z.mul_1_r.
  generalize (Pos2Z.is_pos d). generalize (Z.pos d) as k.
  intros k Hk H0 H100.
  assert (Hd : 0 < k * 2) by lia.
  pose proof (Z.mul_div_le (n * 2 + k) (k * 2) Hd) as Hle.
  pose proof (Z.mul_succ_div_gt (n * 2 + k) (k * 2) Hd) as Hgt.
  set (r := (n * 2 + k) `div` (k * 2)) in *. nia.
Qed.

Lemma nearest_integer (c : Z) :
  Numeric.nearest (QArith_base.inject_Z c) = c.
Proof.
  unfold Numeric.nearest, Numeric.floor, Numeric.half. simpl.
  symmetry. apply (Z.div_unique _ _ c 1); lia.
Qed.

Lemma Numeric_safeWidth_integer (c : Z) :
  Numeric.safeWidth (Numeric.of_integer c)
  = Numeric.of_integer (100 `min` (0 `max` c)).
Proof.
  unfold Numeric.of_integer at 1. rewrite Numeric_safeWidth_cases.
  unfold Numeric.of_integer, QArith_base.Qle_bool. simpl.
  rewrite !Z.mul_1_r.
  destruct (Z.leb_spec 100 c); [do 2 f_equal; lia|].
  destruct (Z.leb_spec 0 c); do 2 f_equal; lia.
Qed.

Lemma Numeric_toFixed0_integer (n : Z) :
  0 ≤ n → Numeric.toFixed0 (Numeric.of_integer n) = pretty n.
Proof.
  intros Hn. unfold Numeric.toFixed0, Numeric.of_integer.
  rewrite nearest_integer.
  replace (QArith_base.Qle_bool (QArith_base.inject_Z 0) (QArith_base.inject_Z n))
    with true; [done|].
  symmetry. unfold QArith_base.Qle_bool. simpl. apply Z.leb_le. lia.
Qed.

(** On the integer scores the bar on any number is the bar of
    [Providers]: same colour, same width, same text. *)
Lemma Numeric_ConfidenceBar_on_integers (c : Z) :
  Numeric.color (Numeric.ConfidenceBar (Numeric.of_integer c))
  = Providers.color (Providers.ConfidenceBar (Fin c))
  ∧ Numeric.toFixed0 (Numeric.width (Numeric.ConfidenceBar (Numeric.of_integer c)))
    +:+ "%"
    = Providers.width (Providers.ConfidenceBar (Fin c))
  ∧ Numeric.percentage (Numeric.ConfidenceBar (Numeric.of_integer c))
    = Providers.percentage (Providers.ConfidenceBar (Fin c)).
Proof.
  destruct (ConfidenceBar_clamps_integers c) as (_ & Hw & Hp & Hr).
  cbv zeta in Hw, Hp, Hr. rewrite Hw, Hp.
  unfold Numeric.ConfidenceBar.
  cbn [Numeric.color Numeric.width Numeric.percentage].
  rewrite Numeric_safeWidth_integer, Numeric_toFixed0_integer by lia.
  repeat split.
  unfold Providers.ConfidenceBar, Numeric.ge, Numeric.of_integer,
    QArith_base.Qle_bool.
  simpl. rewrite !Z.mul_1_r.
  repeat case_bool_decide;
    destruct (Z.leb_spec 90 c); destruct (Z.leb_spec 75 c); try lia; reflexivity.
Qed.

(** A score of 89.6 is drawn at 89.6 and printed as 90%, the text also
    printed for 90, which is drawn at 90: the percentage printed is not
    the width, whatever way the text is read.  (On [NaN] the width is
    [NaN], no number from 0 to 100.) *)
Lemma C8_fraction_is_rounded_in_the_text :
  ¬ Numeric.bar_shows_the_clamp.
Proof.
  intros [value_of Hbar].
  destruct (Hbar (Numeric.Finite (QArith_base.Qmake 448 5)))
    as (w1 & Hw1 & _ & _ & _ & Hv1).
  destruct (Hbar (Numeric.of_integer 90)) as (w2 & Hw2 & _ & _ & _ & Hv2).
  assert (Hp1 :
    Numeric.percentage (Numeric.ConfidenceBar
                          (Numeric.Finite (QArith_base.Qmake 448 5))) = "90%")
    by by vm_compute.
  assert (Hp2 :
    Numeric.percentage (Numeric.ConfidenceBar (Numeric.of_integer 90)) = "90%")
    by by vm_compute.
  rewrite Hp1 in Hv1. rewrite Hp2 in Hv2.
  vm_compute in Hw1. vm_compute in Hw2.
  injection Hw1 as <-. injection Hw2 as <-.
  assert (Heq : QArith_base.Qeq (QArith_base.Qmake 448 5) (QArith_base.inject_Z 90)).
  { eapply QArith_base.Qeq_trans; [|exact Hv2]. by apply QArith_base.Qeq_sym. }
  revert Heq. unfold QArith_base.Qeq. simpl. lia.
Qed.

(** C8 (amended): for every finite confidence [q], also below 0 and
    above 100, the width of the bar is [min(100, max(0, q))], a number
    from 0 to 100; the percentage printed is not that number but the
    integer nearest to it (the larger one at a half), which is from 0 to
    100 too.  On an integer confidence the two agree: width and
    percentage are both [min(100, max(0, c))].  An infinite confidence
    is drawn and printed as 100 or as 0; on [NaN] the width is [NaN] and
    the text is NaN%. *)
Theorem C8_ConfidenceBar_clamps_then_rounds :
  (∀ q : QArith_base.Q,
     ∃ w : QArith_base.Q,
       Numeric.width (Numeric.ConfidenceBar (Numeric.Finite q)) = Numeric.Finite w
       ∧ Numeric.Finite w
         = Numeric.Math_min (Numeric.of_integer 100)
             (Numeric.Math_max (Numeric.of_integer 0) (Numeric.Finite q))
       ∧ QArith_base.Qle (QArith_base.inject_Z 0) w
       ∧ QArith_base.Qle w (QArith_base.inject_Z 100)
       ∧ Numeric.percentage (Numeric.ConfidenceBar (Numeric.Finite q))
         = pretty (Numeric.nearest w) +:+ "%"
       ∧ 0 ≤ Numeric.nearest w ≤ 100
       ∧ QArith_base.Qle (QArith_base.inject_Z (Numeric.nearest w))
           (QArith_base.Qplus w Numeric.half)
       ∧ QArith_base.Qlt (QArith_base.Qplus w Numeric.half)
           (QArith_base.inject_Z (Numeric.nearest w + 1)))
  ∧ (∀ c : Z,
       let shown := 100 `min` (0 `max` c) in
       Numeric.width (Numeric.ConfidenceBar (Numeric.of_integer c))
       = Numeric.of_integer shown
       ∧ Numeric.percentage (Numeric.ConfidenceBar (Numeric.of_integer c))
         = pretty shown +:+ "%"
       ∧ 0 ≤ shown ≤ 100)
  ∧ (Numeric.width (Numeric.ConfidenceBar Numeric.PosInfinity)
     = Numeric.of_integer 100
     ∧ Numeric.percentage (Numeric.ConfidenceBar Numeric.PosInfinity) = "100%")
  ∧ (Numeric.width (Numeric.ConfidenceBar Numeric.NegInfinity)
     = Numeric.of_integer 0
     ∧ Numeric.percentage (Numeric.ConfidenceBar Numeric.NegInfinity) = "0%")
  ∧ (Numeric.width (Numeric.ConfidenceBar Numeric.NotANumber)
     = Numeric.NotANumber
     ∧ Numeric.percentage (Numeric.ConfidenceBar Numeric.NotANumber) = "NaN%").
Proof.
  split; [|split; [|split; [|split]]].
  - intros q.
    destruct (Numeric_safeWidth_range q) as (w & Hw & H0 & H100).
    exists w. unfold Numeric.ConfidenceBar.
    cbn [Numeric.width Numeric.percentage].
    split; [exact Hw|]. split; [by rewrite <- Hw, Numeric_clamp_order|].
    split; [exact H0|]. split; [exact H100|].
    split; [|by apply nearest_range].
    rewrite Hw. unfold Numeric.toFixed0.
    apply QArith_base.Qle_bool_iff in H0. by rewrite H0.
  - intros c shown. unfold Numeric.ConfidenceBar.
    cbn [Numeric.width Numeric.percentage].
    rewrite Numeric_safeWidth_integer. fold shown.
    rewrite Numeric_toFixed0_integer by (subst shown; lia).
    repeat split; subst shown; lia.
  - split; by vm_compute.
  - split; by vm_compute.
  - split; by vm_compute.
Qed.

(** ** Validating one provider from the typed providers page *)

Section Validate.
Context `{StringToNumber}.

Lemma update_provider_other today id final (p : Providers.Provider) :
  Providers.id p ≠ id → Providers.update_provider today id final p = p.
Proof. intros Hne. unfold Providers.update_provider. by case_bool_decide. Qed.

Lemma update_provider_id today id final (p : Providers.Provider) :
  Providers.id (Providers.update_provider today id final p) = Providers.id p.
Proof. unfold Providers.update_provider. by case_bool_decide. Qed.

(** The status of the validated entry is the returned one whenever one
    is returned. *)
Lemma update_provider_status today final (p : Providers.Provider) :
  JS.nullish (Providers.validation_status final) = false →
  Providers.status (Providers.update_provider today (Providers.id p) final p)
  = Providers.validation_status final.
Proof.
  intros Hv. unfold Providers.update_provider.
  case_bool_decide; [|done]. simpl. unfold Providers.newStatus, coalesce.
  by rewrite Hv.
Qed.

(** The confidence of the validated entry is the returned one when that
    is a number other than [0] (and [NaN]); a returned [0] leaves the
    confidence of the entry as it was. *)
Lemma update_provider_confidence today final (p : Providers.Provider) (z : Z) :
  Providers.confidence_score final = JNum (Fin z) →
  Providers.confidence
    (Providers.update_provider today (Providers.id p) final p)
  = if bool_decide (z = 0) then Providers.confidence p else Fin z.
Proof.
  intros Hc. unfold Providers.update_provider.
  case_bool_decide; [|done]. simpl. unfold Providers.newConfidence.
  rewrite Hc; simpl. by case_bool_decide.
Qed.

(** C9: a successful validation of one provider changes the list state
    only at the entries whose id is the validated one: every other entry
    stays where it was, with all its fields. *)
Theorem C9_handleValidate_frame
    today id result (st : Providers.State) (i : nat) (p : Providers.Provider) :
  Providers.providers st !! i = Some p →
  Providers.id p ≠ id →
  Providers.providers (Providers.handleValidate today id (inr result) st) !! i
  = Some p
  ∧ length (Providers.providers (Providers.handleValidate today id (inr result) st))
    = length (Providers.providers st).
Proof.
  intros Hi Hne. simpl. split.
  - rewrite list_lookup_fmap, Hi. simpl. f_equal.
    by apply update_provider_other.
  - by rewrite length_fmap.
Qed.

End Validate.

Lemma C9_handleValidate_frame_witness :
  Providers.providers two_providers !! 1%nat = Some provider_2
  ∧ Providers.id provider_2 ≠ "1"
  ∧ Providers.providers
      (Providers.handleValidate (H := no_numeric_strings)
         "2025-02-01" "1" (inr high_risk_zero) two_providers) !! 1%nat
    = Some provider_2
  ∧ length (Providers.providers
              (Providers.handleValidate (H := no_numeric_strings)
                 "2025-02-01" "1" (inr high_risk_zero) two_providers))
    = length (Providers.providers two_providers).
Proof.
  split; [reflexivity|]. split; [discriminate|].
  apply (C9_handleValidate_frame (H := no_numeric_strings)
           "2025-02-01" "1" high_risk_zero two_providers 1%nat provider_2);
    [reflexivity | discriminate].
Defined.

Section Pages.
Context `{StringToNumber}.

(** C3: after a validation run the entry is meant to show the status and
    the confidence of that run, also a confidence of 0.  The handler
    writes [newConfidence || p.confidence]: a run that returns high_risk
    with a score of 0 for a provider shown at 85 leaves 85 on display
    beside the new status.  (The other providers page reloads the list
    after the run and has no such fallback.) *)
Theorem C3_zero_confidence_keeps_previous :
  Providers.newConfidence (Providers.final_of high_risk_zero) = Fin 0
  ∧ Providers.providers
      (Providers.handleValidate "2025-02-01" "1" (inr high_risk_zero) two_providers)
    = [ {| Providers.id := "1";
           Providers.name := "Ada Moreau";
           Providers.npi := "1234567893";
           Providers.specialty := "Cardiology";
           Providers.status := JStr "high_risk";
           Providers.confidence := Fin 85;
           Providers.lastValidated := "2025-02-01" |};
        provider_2 ].
Proof. split; reflexivity. Qed.

(** C10: with a status filter other than 'all' the page is meant to show
    exactly the providers whose badge shows that status.  The filter
    compares [p.status], the badge shows
    [validation_status || status || 'pending']: a provider with
    validation_status 'validated' and no [status] property, whose badge
    reads Validated, is not shown under the filter 'validated'; and a
    provider with validation_status 'validated' and status 'pending' is
    shown under the filter 'pending' with a Validated badge. *)
Theorem C10_filter_and_badge_read_different_fields :
  ProviderTable.status_badge (ProviderTable.render_row validated_payload)
  = ProviderTable.getStatusBadge (JStr "validated")
  ∧ ProvidersPage.rendered_rows "validated" [validated_payload] = []
  ∧ ProvidersPage.rendered_rows "pending" [two_status_payload]
    = [ProviderTable.render_row two_status_payload]
  ∧ ProviderTable.children
      (ProviderTable.status_badge (ProviderTable.render_row two_status_payload))
    = "Validated".
Proof. repeat split; reflexivity. Qed.

End Pages.

(** ** Manual updates of a discrepancy *)

(** Deciding a closed, decidable proposition by evaluation. *)
Ltac by_evaluation :=
  refine (bool_decide_unpack _ _); vm_compute; exact I.

Lemma nextStatus_cases (s : string) :
  Discrepancies.nextStatus s
  = if bool_decide (s = "open") then "under_review" else "resolved".
Proof. unfold Discrepancies.nextStatus. by repeat case_bool_decide. Qed.

Lemma offered_updates_cases (d : DiscrepancyList.discrepancy) :
  DiscrepanciesPage.offered_updates d
  = if strict_eq (DiscrepancyList.status d) (JStr "open")
    then [DiscrepanciesPage.handleResolve (DiscrepancyList.id d)]
    else [].
Proof.
  unfold DiscrepanciesPage.offered_updates, DiscrepancyList.actions.
  destruct (strict_eq (DiscrepancyList.status d) (JStr "open")) eqn:Ho;
    destruct (strict_eq (DiscrepancyList.status d) (JStr "resolved")) eqn:Hr;
    reflexivity.
Qed.

Lemma strict_eq_JStr (v : jsval) (s : string) :
  strict_eq v (JStr s) = true ↔ v = JStr s.
Proof.
  destruct v as [| |b|[z|]|s']; simpl; try (split; [done | discriminate]).
  apply bool_decide_eq_true.
Qed.

(** The review handler of the typed page asks for under_review when the
    discrepancy is open: "only open -> resolved" does not hold of it. *)
Lemma C4_review_of_open_asks_under_review :
  ¬ manual_update_only_open_to_resolved (H := no_numeric_strings).
Proof.
  intros [_ Hreview].
  destruct (Hreview None open_discrepancy eq_refl) as [_ Hasked].
  discriminate Hasked.
Qed.

Section Manual.
Context `{StringToNumber}.

(** C4 (amended): a manual update never leaves resolved and never asks
    for open.  The list view offers exactly one update, to resolved, on
    an open discrepancy and none otherwise; the review handler of the
    typed page, offered on every row that is not being updated, asks for
    under_review on an open discrepancy and for resolved on any other,
    so that two reviews resolve any discrepancy. *)
Theorem C4_manual_updates_move_forward :
  (∀ d, DiscrepanciesPage.offered_updates d
        = if strict_eq (DiscrepancyList.status d) (JStr "open")
          then [ {| DiscrepanciesPage.update_id := DiscrepancyList.id d;
                    DiscrepanciesPage.update_status := "resolved";
                    DiscrepanciesPage.update_notes := "Resolved manually" |} ]
          else [])
  ∧ (∀ disc, Discrepancies.review_enabled None disc = true)
  ∧ (∀ disc,
        Discrepancies.update_status (Discrepancies.review_request disc)
        = if bool_decide (Discrepancies.status disc = "open")
          then "under_review" else "resolved")
  ∧ (∀ s, Discrepancies.nextStatus (Discrepancies.nextStatus s) = "resolved")
  ∧ Discrepancies.nextStatus "resolved" = "resolved".
Proof.
  split; [apply offered_updates_cases|].
  split; [reflexivity|].
  split; [intros disc; apply nextStatus_cases|].
  split; [|reflexivity].
  intros s. rewrite !nextStatus_cases. by repeat case_bool_decide.
Qed.

End Manual.

(** ** The status domain of a discrepancy *)

Lemma Status_three_valued :
  Discrepancies.Status = {[ "open"; "under_review"; "resolved" ]}.
Proof. reflexivity. Qed.

Lemma nextStatus_in_Status (s : string) :
  Discrepancies.nextStatus s ∈ Discrepancies.Status.
Proof.
  rewrite nextStatus_cases. unfold Discrepancies.Status.
  case_bool_decide; set_solver.
Qed.

Lemma normalizedStatus_Status (s : string) :
  s ∈ Discrepancies.Status → Discrepancies.normalizedStatus s = s.
Proof.
  unfold Discrepancies.Status. intros Hs.
  apply elem_of_union in Hs as [Hs|Hs]; [apply elem_of_union in Hs as [Hs|Hs]|];
    apply elem_of_singleton in Hs; subst s; reflexivity.
Qed.

(** The typed page declares, renders and asks for a third status,
    under_review: the two-value domain does not hold of it. *)
Lemma C5_under_review_is_a_status :
  ¬ discrepancy_status_two_valued.
Proof.
  intros (_ & _ & Hnext).
  assert (Hopen : "open" ∈ discrepancy_statuses) by by_evaluation.
  specialize (Hnext "open" Hopen).
  revert Hnext. by_evaluation.
Qed.

(** C5 (amended): in the typed discrepancies page every status is drawn
    from the three-value domain {open, under_review, resolved}.  The
    badge tables have exactly these keys, and a review keeps the domain:
    if every listed discrepancy has a status of the domain and the
    server answers with one (or with none), the request asks for a
    status of the domain and every listed discrepancy has one
    afterwards.  The list view's handler only asks for resolved. *)
Theorem C5_three_valued_status_invariant
    (disc : Discrepancies.Discrepancy) (updated : option string)
    (st : Discrepancies.State) :
  Forall (λ d, Discrepancies.status d ∈ Discrepancies.Status)
         (Discrepancies.discrepancies st) →
  from_option (λ s, Discrepancies.normalizedStatus s ∈ Discrepancies.Status)
              True updated →
  dom Discrepancies.styles = Discrepancies.Status
  ∧ dom Discrepancies.labels = Discrepancies.Status
  ∧ Discrepancies.nextStatus (Discrepancies.status disc) ∈ Discrepancies.Status
  ∧ Forall (λ d, Discrepancies.status d ∈ Discrepancies.Status)
           (Discrepancies.discrepancies
              (Discrepancies.handleReview disc (inr updated) st))
  ∧ (∀ x, DiscrepanciesPage.update_status (DiscrepanciesPage.handleResolve x)
          = "resolved").
Proof.
  intros Hst Hans.
  split; [by_evaluation|]. split; [by_evaluation|].
  split; [apply nextStatus_in_Status|]. split; [|reflexivity].
  simpl. apply Forall_fmap. eapply Forall_impl; [exact Hst|].
  intros d Hd. simpl. unfold Discrepancies.set_status.
  case_bool_decide; [simpl | exact Hd].
  destruct updated as [s|]; simpl in *; [exact Hans|].
  rewrite normalizedStatus_Status; apply nextStatus_in_Status.
Qed.

Lemma C5_three_valued_status_invariant_witness :
  Forall (λ d, Discrepancies.status d ∈ Discrepancies.Status)
         (Discrepancies.discrepancies one_discrepancy)
  ∧ from_option (λ s, Discrepancies.normalizedStatus s ∈ Discrepancies.Status)
                True (Some "Under Review")
  ∧ Discrepancies.status <$>
      Discrepancies.discrepancies
        (Discrepancies.handleReview open_discrepancy
           (inr (Some "Under Review")) one_discrepancy)
    = ["under_review"]
  ∧ Forall (λ d, Discrepancies.status d ∈ Discrepancies.Status)
           (Discrepancies.discrepancies
              (Discrepancies.handleReview open_discrepancy
                 (inr (Some "Under Review")) one_discrepancy)).
Proof.
  assert (H1 : Forall (λ d, Discrepancies.status d ∈ Discrepancies.Status)
                 (Discrepancies.discrepancies one_discrepancy)).
  { constructor; [by_evaluation | constructor]. }
  assert (H2 : from_option
                 (λ s, Discrepancies.normalizedStatus s ∈ Discrepancies.Status)
                 True (Some "Under Review")).
  { simpl. by_evaluation. }
  split; [exact H1|]. split; [exact H2|]. split; [reflexivity|].
  exact (proj1 (proj2 (proj2 (proj2
    (C5_three_valued_status_invariant open_discrepancy (Some "Under Review")
       one_discrepancy H1 H2))))).
Defined.

(** ** The status domain of a provider *)

Lemma badges_keys : dom ProviderTable.badges = provider_statuses.
Proof. by_evaluation. Qed.

(** Outside its five keys (and the inherited property names)
    [getStatusBadge] falls back to the pending badge. *)
Lemma getStatusBadge_fallback (s : string) :
  s ∉ provider_statuses → s ∉ Object_prototype →
  ProviderTable.getStatusBadge (JStr s)
  = {| ProviderTable.className := "badge badge-warning";
       ProviderTable.children := "Pending" |}.
Proof.
  intros Hs Hp. unfold ProviderTable.getStatusBadge, get; simpl.
  rewrite <- badges_keys in Hs. apply not_elem_of_dom in Hs. rewrite Hs.
  by rewrite bool_decide_eq_false_2.
Qed.

(** The typed providers page types the status as validated, pending or
    failed: the five-value domain does not hold of it. *)
Lemma C6_typed_page_has_three_statuses :
  ¬ provider_status_five_valued.
Proof.
  intros (_ & Htyped & _).
  assert (Hfailed : "failed" ∈ Providers.ProviderStatus) by by_evaluation.
  rewrite Htyped in Hfailed. revert Hfailed. by_evaluation.
Qed.

(** C6 (amended): the badge renderer of the provider table accepts
    exactly the five statuses {pending, validated, needs_review,
    review_recommended, high_risk}, each with a badge of its own text;
    the typed providers page declares the three statuses {validated,
    pending, failed} and has a style and a label for exactly these, two
    of which (validated, pending) are among the five. *)
Theorem C6_status_domains_of_the_two_pages :
  dom ProviderTable.badges = provider_statuses
  ∧ (ProviderTable.children ∘ ProviderTable.getStatusBadge ∘ JStr)
      <$> [ "pending"; "validated"; "needs_review"; "review_recommended";
            "high_risk" ]
    = [ "Pending"; "Validated"; "Needs Review"; "Review Recommended";
        "High Risk" ]
  ∧ Providers.ProviderStatus = {[ "validated"; "pending"; "failed" ]}
  ∧ dom Providers.styles = Providers.ProviderStatus
  ∧ dom Providers.labels = Providers.ProviderStatus
  ∧ Providers.ProviderStatus ∩ provider_statuses = {[ "validated"; "pending" ]}.
Proof.
  split; [apply badges_keys|]. split; [reflexivity|]. split; [reflexivity|].
  split; [by_evaluation|]. split; by_evaluation.
Qed.

(** ** The summary record and its cards *)

Section SummaryFacts.
Context {float : Type} (toFixed1 : float → string) (zero : float).

(** The top row of the typed dashboard shows five of the fields. *)
Lemma StatCards_values (s : Dashboard.SummaryStats float) :
  (Dashboard.StatCards toFixed1 zero (Some s)).*2
  = [ Dashboard.VNum (Dashboard.total_providers s);
      Dashboard.VNum (Dashboard.validated_providers s);
      Dashboard.VNum (Dashboard.pending_providers s);
      Dashboard.VNum (Dashboard.open_discrepancies s);
      Dashboard.VStr (toFixed1 (Dashboard.avg_confidence_score s) +:+ "%") ].
Proof. reflexivity. Qed.

(** C7: the summary record is made of exactly the seven fields
    total_providers, validated_providers, pending_providers,
    total_discrepancies, open_discrepancies, avg_confidence_score and
    high_risk_providers, and the summary cards show every one of them:
    seven cards, one per field, each printing its field (the average
    through [toFixed(1)]). *)
Theorem C7_summary_fields_all_shown (s : Dashboard.SummaryStats float) :
  s = {| Dashboard.total_providers := Dashboard.total_providers s;
         Dashboard.validated_providers := Dashboard.validated_providers s;
         Dashboard.pending_providers := Dashboard.pending_providers s;
         Dashboard.total_discrepancies := Dashboard.total_discrepancies s;
         Dashboard.open_discrepancies := Dashboard.open_discrepancies s;
         Dashboard.avg_confidence_score := Dashboard.avg_confidence_score s;
         Dashboard.high_risk_providers := Dashboard.high_risk_providers s |}
  ∧ SummaryCards.title <$> SummaryCards.SummaryCards toFixed1 (Some s)
    = [ "Total Providers"; "Validated"; "Pending"; "Discrepancies";
        "Open Issues"; "Avg Confidence"; "High Risk" ]
  ∧ SummaryCards.value <$> SummaryCards.SummaryCards toFixed1 (Some s)
    = [ Dashboard.VNum (Dashboard.total_providers s);
        Dashboard.VNum (Dashboard.validated_providers s);
        Dashboard.VNum (Dashboard.pending_providers s);
        Dashboard.VNum (Dashboard.total_discrepancies s);
        Dashboard.VNum (Dashboard.open_discrepancies s);
        Dashboard.VStr (toFixed1 (Dashboard.avg_confidence_score s) +:+ "%");
        Dashboard.VNum (Dashboard.high_risk_providers s) ].
Proof. destruct s; repeat split; reflexivity. Qed.

End SummaryFacts.

(** ** Re-running a validation *)

Section Rerun.
Context (cfg : Engine.Config) (src : Engine.Sources).
Import Engine.

Implicit Types (ds : list Discrepancy) (d : Discrepancy)
  (fc gc : string * list FieldCandidate).

Lemma open_for_spec pid f d :
  open_for pid f d = true ↔ status d = open ∧ provider_id d = pid ∧ field d = f.
Proof. unfold open_for. apply bool_decide_eq_true. Qed.

Lemma open_for_refresh pid f cs o d :
  open_for pid f (refresh cs o d) = open_for pid f d.
Proof. reflexivity. Qed.

Lemma open_for_close pid f now final d :
  open_for pid f (close now final d) = false.
Proof.
  apply not_true_iff_false. rewrite open_for_spec. simpl. intros [? _]. done.
Qed.

Lemma open_for_new_row now pid f cs o ds :
  open_for pid f (new_row now pid f cs o ds) = true.
Proof. by apply open_for_spec. Qed.

Lemma open_for_other_field pid f g d :
  f ≠ g → open_for pid g d = true → open_for pid f d = false.
Proof.
  intros Hne Hg. apply not_true_iff_false. intros Hf.
  apply open_for_spec in Hf as (_ & _ & Hf).
  apply open_for_spec in Hg as (_ & _ & Hg). congruence.
Qed.

Lemma refresh_refresh cs o d : refresh cs o (refresh cs o d) = refresh cs o d.
Proof. reflexivity. Qed.

Lemma refresh_new_row now pid f cs o ds :
  refresh cs o (new_row now pid f cs o ds) = new_row now pid f cs o ds.
Proof. reflexivity. Qed.

(** Rewriting rows that are already as the rewriting leaves them writes
    nothing. *)
Lemma on_open_fixed pid f (g : Discrepancy → Discrepancy) ds :
  Forall (λ d, open_for pid f d = true → g d = d) ds → on_open pid f g ds = ds.
Proof.
  unfold on_open. induction 1 as [|d ds Hd _ IH]; [done|].
  rewrite fmap_cons, IH. f_equal.
  destruct (open_for pid f d); [by apply Hd | done].
Qed.

Lemma existsb_on_open (q : Discrepancy → bool) pid f
    (g : Discrepancy → Discrepancy) ds :
  (∀ d, open_for pid f d = true → q (g d) = q d) →
  existsb q (on_open pid f g ds) = existsb q ds.
Proof.
  intros Hq. unfold on_open. induction ds as [|d ds IH]; [done|].
  rewrite fmap_cons. cbn [existsb]. rewrite IH. f_equal.
  destruct (open_for pid f d) eqn:Hd; [by apply Hq | done].
Qed.

Lemma existsb_false_Forall (q : Discrepancy → bool) ds :
  existsb q ds = false → Forall (λ d, q d = false) ds.
Proof.
  induction ds as [|d ds IH]; simpl; [constructor|].
  intros [Hd Hds]%orb_false_iff. constructor; auto.
Qed.

(** What one field writes, case by case. *)
Lemma reconcile_field_cases now pid ds f cs :
  reconcile_field cfg now pid None ds (f, cs)
  = if has_discrepancy (detect cfg cs) then
      if existsb (open_for pid f) ds
      then on_open pid f (refresh cs (detect cfg cs)) ds
      else (ds ++ [new_row now pid f cs (detect cfg cs) ds])%list
    else on_open pid f (λ d, close now (final_value d) d) ds.
Proof. reflexivity. Qed.

(** Reconciling a settled field writes nothing. *)
Lemma settled_fixed now pid ds fc :
  settled cfg pid ds fc → reconcile_field cfg now pid None ds fc = ds.
Proof.
  destruct fc as [f cs]. unfold settled. rewrite reconcile_field_cases. simpl.
  destruct (has_discrepancy (detect cfg cs)).
  - intros [-> Hrows]. by apply on_open_fixed.
  - intros Hnone. apply on_open_fixed.
    eapply Forall_impl; [exact Hnone|]. simpl. intros d -> ?. done.
Qed.

(** Reconciling a field settles it. *)
Lemma reconcile_field_settles now pid ds fc :
  settled cfg pid (reconcile_field cfg now pid None ds fc) fc.
Proof.
  destruct fc as [f cs]. unfold settled. rewrite reconcile_field_cases. simpl.
  destruct (has_discrepancy (detect cfg cs)).
  - destruct (existsb (open_for pid f) ds) eqn:Hex.
    + split.
      * rewrite existsb_on_open; [done|]. intros d _. apply open_for_refresh.
      * unfold on_open. apply Forall_fmap, Forall_forall. intros d _. simpl.
        destruct (open_for pid f d) eqn:Hd; [done|]. by rewrite Hd.
    + split.
      * rewrite existsb_app. simpl. rewrite open_for_new_row.
        by rewrite orb_true_r.
      * apply Forall_app. split.
        -- eapply Forall_impl; [by apply existsb_false_Forall|].
           simpl. intros d -> ?. done.
        -- by repeat constructor.
  - unfold on_open. apply Forall_fmap, Forall_forall. intros d _. simpl.
    destruct (open_for pid f d) eqn:Hd; [apply open_for_close | done].
Qed.

(** What another field writes leaves the rows of this one alone. *)
Lemma open_for_on_open_other pid f g (h : Discrepancy → Discrepancy) d :
  f ≠ g →
  (∀ d, field (h d) = field d) →
  open_for pid f (if open_for pid g d then h d else d) = open_for pid f d.
Proof.
  intros Hne Hfield. destruct (open_for pid g d) eqn:Hg; [|done].
  rewrite (open_for_other_field pid f g d Hne Hg).
  apply not_true_iff_false. intros Hf.
  apply open_for_spec in Hf as (_ & _ & Hf).
  apply open_for_spec in Hg as (_ & _ & Hg).
  rewrite Hfield in Hf. congruence.
Qed.

Lemma settled_on_open_other pid ds fc g (h : Discrepancy → Discrepancy) :
  fc.1 ≠ g →
  (∀ d, field (h d) = field d) →
  settled cfg pid ds fc → settled cfg pid (on_open pid g h ds) fc.
Proof.
  intros Hne Hfield. unfold settled.
  destruct (has_discrepancy (detect cfg fc.2)).
  - intros [Hex Hrows]. split.
    + rewrite existsb_on_open; [done|]. intros d Hg.
      pose proof (open_for_on_open_other pid fc.1 g h d Hne Hfield) as Hd.
      by rewrite Hg in Hd.
    + unfold on_open. apply Forall_fmap.
      eapply Forall_impl; [exact Hrows|]. simpl. intros d Hd.
      rewrite (open_for_on_open_other pid fc.1 g h d Hne Hfield).
      intros Hf. rewrite (open_for_other_field pid g fc.1 d); [auto|done|done].
  - intros Hnone. unfold on_open. apply Forall_fmap.
    eapply Forall_impl; [exact Hnone|]. simpl. intros d Hd.
    by rewrite (open_for_on_open_other pid fc.1 g h d Hne Hfield).
Qed.

Lemma settled_app_other pid ds fc d' :
  open_for pid fc.1 d' = false →
  settled cfg pid ds fc → settled cfg pid (ds ++ [d']) fc.
Proof.
  intros Hd'. unfold settled.
  destruct (has_discrepancy (detect cfg fc.2)).
  - intros [Hex Hrows]. split.
    + by rewrite existsb_app, Hex.
    + apply Forall_app. split; [done|]. constructor; [|done].
      by rewrite Hd'.
  - intros Hnone. apply Forall_app. split; [done|]. by repeat constructor.
Qed.

Lemma settled_preserved now pid ds fc gc :
  fc.1 ≠ gc.1 →
  settled cfg pid ds fc →
  settled cfg pid (reconcile_field cfg now pid None ds gc) fc.
Proof.
  destruct gc as [g cs]. intros Hne Hfc. simpl in Hne.
  rewrite reconcile_field_cases.
  destruct (has_discrepancy (detect cfg cs)).
  - destruct (existsb (open_for pid g) ds).
    + by apply settled_on_open_other.
    + apply settled_app_other; [|done].
      apply (open_for_other_field pid fc.1 g); [done|].
      apply open_for_new_row.
  - by apply settled_on_open_other.
Qed.

(** After [reconcile] every field of the run is settled ... *)
Lemma reconcile_settles_from now pid (done rest : list (string * list FieldCandidate)) ds :
  coherent (done ++ rest) →
  Forall (settled cfg pid ds) done →
  Forall (settled cfg pid (reconcile cfg now pid (λ _, None) rest ds))
         (done ++ rest).
Proof.
  revert done ds. induction rest as [|gc rest IH]; intros done ds Hco Hdone.
  - by rewrite app_nil_r.
  - unfold reconcile. simpl.
    replace (done ++ gc :: rest)%list with ((done ++ [gc]) ++ rest)%list in *
      by (by rewrite <- app_assoc).
    apply IH; [done|]. apply Forall_app. split.
    + apply Forall_forall. intros fc Hin.
      destruct (decide (fc.1 = gc.1)) as [Heq|Hne].
      * assert (fc = gc) as ->.
        { apply Hco; [|   |done]; set_solver. }
        apply reconcile_field_settles.
      * apply settled_preserved; [done|].
        by eapply (proj1 (Forall_forall _ _) Hdone).
    + repeat constructor. apply reconcile_field_settles.
Qed.

Lemma reconcile_settles now pid cands ds :
  coherent cands →
  Forall (settled cfg pid (reconcile cfg now pid (λ _, None) cands ds)) cands.
Proof. intros Hco. by apply (reconcile_settles_from now pid [] cands ds). Qed.

(** ... and on a table where every field is settled, [reconcile] writes
    nothing. *)
Lemma reconcile_fixed now pid cands ds :
  Forall (settled cfg pid ds) cands →
  reconcile cfg now pid (λ _, None) cands ds = ds.
Proof.
  unfold reconcile. induction 1 as [|fc cands Hfc _ IH]; [done|].
  simpl. by rewrite settled_fixed.
Qed.

Lemma collect_coherent pid : coherent (collect cfg src pid).
Proof.
  unfold coherent, collect. intros a b Ha Hb Hab.
  apply list_elem_of_fmap in Ha as (f & -> & _).
  apply list_elem_of_fmap in Hb as (g & -> & _).
  simpl in Hab. by subst.
Qed.

Lemma reconcile_twice now1 now2 pid ds :
  let cands := collect cfg src pid in
  reconcile cfg now2 pid (λ _, None) cands
    (reconcile cfg now1 pid (λ _, None) cands ds)
  = reconcile cfg now1 pid (λ _, None) cands ds.
Proof.
  intros cands. apply reconcile_fixed, reconcile_settles, collect_coherent.
Qed.

(** The table invariant is kept by every run. *)
Lemma fresh_id_above ds d : d ∈ ds → (id d < fresh_id ds)%nat.
Proof.
  unfold fresh_id. induction ds as [|d' ds IH]; [by intros ?%elem_of_nil|].
  intros [->|Hin]%elem_of_cons; simpl; [lia|]. specialize (IH Hin). lia.
Qed.

Lemma on_open_ids pid f (g : Discrepancy → Discrepancy) ds :
  (∀ d, id (g d) = id d) → id <$> on_open pid f g ds = id <$> ds.
Proof.
  intros Hg. unfold on_open. rewrite <- list_fmap_compose.
  apply list_fmap_ext. intros _ d _. simpl. by destruct (open_for pid f d).
Qed.

Lemma on_open_count (q : Discrepancy → bool) pid f
    (g : Discrepancy → Discrepancy) ds :
  (∀ d, q (g d) = true → q d = true) →
  (length (base.filter (λ d, q d = true) (on_open pid f g ds))
   ≤ length (base.filter (λ d, q d = true) ds))%nat.
Proof.
  intros Hq. unfold on_open. induction ds as [|d ds IH]; [done|].
  rewrite fmap_cons, !filter_cons.
  destruct (open_for pid f d).
  - destruct (decide (q (g d) = true)) as [Hg|Hg].
    + rewrite decide_True by by apply Hq. simpl. lia.
    + destruct (decide (q d = true)); simpl; lia.
  - destruct (decide (q d = true)); simpl; lia.
Qed.

Lemma count_none (q : Discrepancy → bool) ds :
  existsb q ds = false → base.filter (λ d, q d = true) ds = [].
Proof.
  intros Hex%existsb_false_Forall. induction Hex as [|d ds Hd _ IH]; [done|].
  rewrite filter_cons, decide_False by (by rewrite Hd). done.
Qed.

Lemma table_invariant_on_open pid f (g : Discrepancy → Discrepancy) ds :
  (∀ d, id (g d) = id d) →
  (∀ pid' f' d, open_for pid' f' (g d) = true → open_for pid' f' d = true) →
  table_invariant ds → table_invariant (on_open pid f g ds).
Proof.
  intros Hid Hopen [Hnd Hone]. split.
  - by rewrite on_open_ids.
  - intros pid' f'. etrans; [|apply (Hone pid' f')].
    apply on_open_count. apply Hopen.
Qed.

Lemma table_invariant_new_row now pid f cs o ds :
  existsb (open_for pid f) ds = false →
  table_invariant ds → table_invariant (ds ++ [new_row now pid f cs o ds]).
Proof.
  intros Hex [Hnd Hone]. split.
  - rewrite fmap_app. apply NoDup_app. split; [done|]. split.
    + intros n (d & -> & Hd)%list_elem_of_fmap [Heq|[]%elem_of_nil]%elem_of_cons.
      apply fresh_id_above in Hd. simpl in Heq. lia.
    + apply NoDup_singleton.
  - intros pid' f'. rewrite filter_app, length_app, filter_cons, filter_nil.
    destruct (decide (open_for pid' f' (new_row now pid f cs o ds) = true))
      as [Hnew|Hnew]; simpl.
    + apply open_for_spec in Hnew as (_ & <- & <-). simpl.
      by rewrite count_none.
    + specialize (Hone pid' f'). lia.
Qed.

Lemma reconcile_field_keeps_invariant now pid override ds fc :
  table_invariant ds →
  table_invariant (reconcile_field cfg now pid override ds fc).
Proof.
  intros Hinv. destruct fc as [f cs]. unfold reconcile_field.
  assert (Hclose : ∀ final : Discrepancy → option string,
            table_invariant (on_open pid f (λ d, close now (final d) d) ds)).
  { intros final. apply table_invariant_on_open; [done| |done].
    intros pid' f' d. by rewrite open_for_close. }
  assert (Hauto : table_invariant
            (if has_discrepancy (detect cfg cs) then
               if existsb (open_for pid f) ds
               then on_open pid f (refresh cs (detect cfg cs)) ds
               else (ds ++ [new_row now pid f cs (detect cfg cs) ds])%list
             else on_open pid f (λ d, close now (final_value d) d) ds)).
  { destruct (has_discrepancy (detect cfg cs)); [|apply Hclose].
    destruct (existsb (open_for pid f) ds) eqn:Hex.
    - by apply table_invariant_on_open.
    - by apply table_invariant_new_row. }
  destruct override as [v|]; [|exact Hauto].
  destruct (existsb (open_for pid f) ds); [|exact Hauto].
  apply (Hclose (λ _, Some v)).
Qed.

Lemma run_keeps_invariant now pid st :
  table_invariant (discrepancies st) →
  table_invariant (discrepancies (run cfg src now pid st).1).
Proof.
  simpl. unfold reconcile. generalize (collect cfg src pid) as cands.
  generalize (discrepancies st) as ds.
  intros ds cands. revert ds. induction cands as [|fc cands IH]; [done|].
  intros ds Hinv. simpl. apply IH. by apply reconcile_field_keeps_invariant.
Qed.

End Rerun.

(** Scenario A: both phone numbers normalize to the same digits: no
    discrepancy, confidence 100.  Scenario B: the addresses differ: a
    discrepancy, one of two sources agreeing with the registry's value,
    confidence 50, risk high. *)
Lemma scenario_A :
  Engine.detect scenario_cfg (Engine.candidates scenario_cfg scenario_src 1 "phone")
  = {| Engine.field_confidence := 100; Engine.risk := Engine.low;
       Engine.has_discrepancy := false |}.
Proof. reflexivity. Qed.

Lemma scenario_B :
  Engine.detect scenario_cfg (Engine.candidates scenario_cfg scenario_src 1 "address")
  = {| Engine.field_confidence := 50; Engine.risk := Engine.high;
       Engine.has_discrepancy := true |}
  ∧ Engine.discrepancies scenario_first_run.1
    = [ {| Engine.id := 1;
           Engine.provider_id := 1;
           Engine.field := "address";
           Engine.import_value := Some "123 Main St";
           Engine.registry_value := Some "456 Oak Ave";
           Engine.enrichment_value := None;
           Engine.final_value := Some "456 Oak Ave";
           Engine.confidence := 50;
           Engine.risk_level := Engine.high;
           Engine.status := Engine.open;
           Engine.notes := "";
           Engine.created_at := 10;
           Engine.resolved_at := None |} ].
Proof. split; reflexivity. Qed.

(** The engine's manual entry point only takes an open discrepancy to
    resolved, and touches neither another row nor a provider: resolving
    does not alter a confidence_score. *)
Lemma resolveDiscrepancy_open_to_resolved
    now target status' notes' (st st' : Engine.Store) :
  Engine.resolveDiscrepancy now target status' notes' st = Some st' →
  status' = Engine.resolved
  ∧ Engine.providers st' = Engine.providers st
  ∧ Forall2
      (λ d d',
         if bool_decide (Engine.id d = target ∧ Engine.status d = Engine.open)
         then Engine.status d' = Engine.resolved ∧ Engine.id d' = Engine.id d
         else d' = d)
      (Engine.discrepancies st) (Engine.discrepancies st').
Proof.
  unfold Engine.resolveDiscrepancy. destruct status'; [done|].
  destruct (existsb _ _); [|done]. intros [= <-]. simpl.
  split; [reflexivity|]. split; [reflexivity|].
  apply Forall2_fmap_r, Forall_Forall2_diag, Forall_forall. intros d _.
  simpl. by destruct (bool_decide _).
Qed.

Section Idempotence.
Context (cfg : Engine.Config) (src : Engine.Sources).
Import Engine.

(** A forced validation of a known provider always runs the pipeline. *)
Lemma validateOne_forced now pid st :
  is_Some (providers st !! pid) →
  validateOne cfg src now pid true st = Some (run cfg src now pid st).
Proof. intros [p Hp]. unfold validateOne. by rewrite Hp. Qed.

(** C2: two consecutive [validateOne(id, forceRevalidate = true)] calls
    on unchanged source data: when the first call returns, the second
    returns too, with the same result (the same confidence_score, status
    and final values), and leaves the discrepancy table exactly as the
    first call left it: the same rows with the same ids and the same
    values, none added. *)
Theorem C2_validateOne_twice
    (now1 now2 pid : nat) (st st1 : Store) (r1 : FinalizedProvider) :
  validateOne cfg src now1 pid true st = Some (st1, r1) →
  ∃ st2,
    validateOne cfg src now2 pid true st1 = Some (st2, r1)
    ∧ discrepancies st2 = discrepancies st1
    ∧ id <$> discrepancies st2 = id <$> discrepancies st1
    ∧ confidence_score ∘ finalized <$> providers st1 !! pid
      = Some (confidence_score r1)
    ∧ confidence_score ∘ finalized <$> providers st2 !! pid
      = Some (confidence_score r1).
Proof.
  intros Hfirst.
  assert (Hknown : is_Some (providers st !! pid)).
  { unfold validateOne in Hfirst. destruct (providers st !! pid); [eauto|done]. }
  rewrite (validateOne_forced now1 pid st Hknown) in Hfirst.
  injection Hfirst as <- <-.
  eexists. split.
  - apply validateOne_forced. simpl. rewrite lookup_insert_eq. eauto.
  - simpl. rewrite !lookup_insert_eq. simpl.
    rewrite reconcile_twice. done.
Qed.

End Idempotence.

Lemma C2_validateOne_twice_witness :
  Engine.validateOne scenario_cfg scenario_src 10 1 true scenario_store
  = Some (scenario_first_run.1, scenario_first_run.2)
  ∧ ∃ st2,
      Engine.validateOne scenario_cfg scenario_src 20 1 true scenario_first_run.1
      = Some (st2, scenario_first_run.2)
      ∧ Engine.discrepancies st2 = Engine.discrepancies scenario_first_run.1
      ∧ Engine.id <$> Engine.discrepancies st2
        = Engine.id <$> Engine.discrepancies scenario_first_run.1
      ∧ Engine.confidence_score ∘ Engine.finalized
          <$> Engine.providers scenario_first_run.1 !! 1%nat
        = Some (Engine.confidence_score scenario_first_run.2)
      ∧ Engine.confidence_score ∘ Engine.finalized
          <$> Engine.providers st2 !! 1%nat
        = Some (Engine.confidence_score scenario_first_run.2).
Proof.
  split; [reflexivity|].
  apply (C2_validateOne_twice scenario_cfg scenario_src 10 20 1 scenario_store).
  reflexivity.
Defined.

(* ===================================================================== *)
(** * Part III: the rest of the components *)
(* ===================================================================== *)

(** ** Badges and the score cell of the provider table *)

Lemma truthy_or_r (a b : jsval) : truthy b = true → truthy (or a b) = true.
Proof. intros Hb. unfold or. by destruct (truthy a) eqn:Ha. Qed.

Lemma or_falsy (a b : jsval) : truthy a = false → or a b = b.
Proof. intros Ha. unfold or. by rewrite Ha. Qed.

(** X1: a status the provider table has no badge for (any value whose
    key is none of the five statuses and no inherited property name,
    for instance 'failed') is shown with the Pending badge. *)
Theorem X1_unknown_status_shows_pending (status : jsval) :
  ToString status ∉ provider_statuses →
  ToString status ∉ Object_prototype →
  ProviderTable.getStatusBadge status
  = {| ProviderTable.className := "badge badge-warning";
       ProviderTable.children := "Pending" |}.
Proof.
  intros Hs Hp. unfold ProviderTable.getStatusBadge, get.
  rewrite <- badges_keys in Hs. apply not_elem_of_dom in Hs. rewrite Hs.
  by rewrite bool_decide_eq_false_2.
Qed.

Lemma X1_unknown_status_shows_pending_witness :
  (ToString (JStr "failed") ∉ provider_statuses)
  ∧ (ToString (JStr "failed") ∉ Object_prototype)
  ∧ ProviderTable.getStatusBadge (JStr "failed")
    = {| ProviderTable.className := "badge badge-warning";
         ProviderTable.children := "Pending" |}.
Proof.
  assert (H1 : ToString (JStr "failed") ∉ provider_statuses) by by_evaluation.
  assert (H2 : ToString (JStr "failed") ∉ Object_prototype) by by_evaluation.
  split; [exact H1|]. split; [exact H2|].
  exact (X1_unknown_status_shows_pending (JStr "failed") H1 H2).
Defined.

Lemma risk_badges_keys :
  dom DiscrepancyCard.badges = {[ "high"; "medium"; "low" ]}.
Proof. by_evaluation. Qed.

(** X2: a risk level the discrepancy card has no badge for (any value
    whose key is none of high, medium, low and no inherited property
    name, a missing risk level included) is shown as Medium Risk. *)
Theorem X2_unknown_risk_shows_medium (riskLevel : jsval) :
  ToString riskLevel ∉ ({[ "high"; "medium"; "low" ]} : gset string) →
  ToString riskLevel ∉ Object_prototype →
  DiscrepancyCard.getRiskBadge riskLevel
  = {| ProviderTable.className := "badge badge-warning";
       ProviderTable.children := "Medium Risk" |}.
Proof.
  intros Hs Hp. unfold DiscrepancyCard.getRiskBadge, get.
  rewrite <- risk_badges_keys in Hs. apply not_elem_of_dom in Hs. rewrite Hs.
  by rewrite bool_decide_eq_false_2.
Qed.

Lemma X2_unknown_risk_shows_medium_witness :
  (ToString JUndefined ∉ ({[ "high"; "medium"; "low" ]} : gset string))
  ∧ (ToString JUndefined ∉ Object_prototype)
  ∧ DiscrepancyCard.getRiskBadge JUndefined
    = {| ProviderTable.className := "badge badge-warning";
         ProviderTable.children := "Medium Risk" |}.
Proof.
  assert (H1 : ToString JUndefined ∉ ({[ "high"; "medium"; "low" ]} : gset string))
    by by_evaluation.
  assert (H2 : ToString JUndefined ∉ Object_prototype) by by_evaluation.
  split; [exact H1|]. split; [exact H2|].
  exact (X2_unknown_risk_shows_medium JUndefined H1 H2).
Defined.

Section ScoreCell.
Context `{StringToNumber}.

(** X3: a provider whose confidence_score is falsy (missing, null, 0,
    NaN, false or the empty string) is shown with a score of 0, in red. *)
Theorem X3_falsy_score_shows_zero (p : ProviderTable.provider) :
  truthy (ProviderTable.confidence_score p) = false →
  ProviderTable.score (ProviderTable.render_row p) = JNum (Fin 0)
  ∧ ProviderTable.score_color (ProviderTable.render_row p) = "#e74c3c".
Proof.
  intros Hp. unfold ProviderTable.render_row; simpl.
  rewrite (or_falsy _ _ Hp). done.
Qed.

End ScoreCell.

Lemma X3_falsy_score_shows_zero_witness :
  truthy (ProviderTable.confidence_score
            {| ProviderTable.id := JNum (Fin 3);
               ProviderTable.confidence_score := JNull;
               ProviderTable.validation_status := JStr "pending";
               ProviderTable.status := JUndefined |}) = false
  ∧ ProviderTable.score
      (ProviderTable.render_row (H := no_numeric_strings)
         {| ProviderTable.id := JNum (Fin 3);
            ProviderTable.confidence_score := JNull;
            ProviderTable.validation_status := JStr "pending";
            ProviderTable.status := JUndefined |}) = JNum (Fin 0)
  ∧ ProviderTable.score_color
      (ProviderTable.render_row (H := no_numeric_strings)
         {| ProviderTable.id := JNum (Fin 3);
            ProviderTable.confidence_score := JNull;
            ProviderTable.validation_status := JStr "pending";
            ProviderTable.status := JUndefined |}) = "#e74c3c".
Proof.
  split; [reflexivity|].
  apply (X3_falsy_score_shows_zero (H := no_numeric_strings)). reflexivity.
Defined.

(** ** The status filter of the providers page *)

(** X4: whatever the filter, the providers page shows a sub-list of the
    loaded providers, in their order, and filtering what is shown
    changes nothing; 'all' shows every provider; any other filter shows
    only providers whose [status] property is the filter value, so never
    one without that property. *)
Theorem X4_getFilteredProviders_selects
    (statusFilter : string) (providers : list ProviderTable.provider) :
  ProvidersPage.getFilteredProviders statusFilter providers `sublist_of` providers
  ∧ ProvidersPage.getFilteredProviders statusFilter
      (ProvidersPage.getFilteredProviders statusFilter providers)
    = ProvidersPage.getFilteredProviders statusFilter providers
  ∧ (statusFilter = "all" →
     ProvidersPage.getFilteredProviders statusFilter providers = providers)
  ∧ (statusFilter ≠ "all" →
     Forall (λ p, ProviderTable.status p = JStr statusFilter)
       (ProvidersPage.getFilteredProviders statusFilter providers)).
Proof.
  unfold ProvidersPage.getFilteredProviders.
  case_bool_decide as Hall.
  - repeat split; done.
  - split; [apply sublist_filter|]. split; [by apply list_filter_filter_r|].
    split; [done|]. intros _. apply Forall_forall. intros p Hp.
    apply list_elem_of_filter in Hp as [Hp _]. by apply strict_eq_JStr.
Qed.

(** ** Validating one provider: rejected and empty answers *)

Section ValidateEdges.
Context `{StringToNumber}.

(** X5: when the validation request is rejected, the provider list is
    left as it was, the row is no longer marked as validating, and an
    error text is always set (the server's detail, else the error's
    message, else a fixed text). *)
Theorem X5_handleValidate_rejected today id (err : Providers.Failure)
    (st : Providers.State) :
  let st' := Providers.handleValidate today id (inl err) st in
  Providers.providers st' = Providers.providers st
  ∧ Providers.validatingId st' = None
  ∧ truthy (Providers.error st') = true.
Proof. simpl. repeat split. by apply truthy_or_r. Qed.

Lemma newConfidence_falsy (final : Providers.FinalResults) :
  truthy (Providers.confidence_score final) = false →
  truthy (JNum (Providers.newConfidence final)) = false.
Proof.
  unfold Providers.newConfidence.
  destruct (Providers.confidence_score final) as [| |b|[z|]|s]; simpl;
    try done; intros ->; done.
Qed.

(** X6: an answer that carries neither a status nor a usable score
    (both missing or null; also a score of 0, NaN, false or '') marks
    the validated entry 'validated', stamps it with today's date and
    keeps the confidence it had. *)
Theorem X6_answer_without_status_or_score
    today (final : Providers.FinalResults) (p : Providers.Provider) :
  nullish (Providers.validation_status final) = true →
  truthy (Providers.confidence_score final) = false →
  Providers.update_provider today (Providers.id p) final p
  = {| Providers.id := Providers.id p;
       Providers.name := Providers.name p;
       Providers.npi := Providers.npi p;
       Providers.specialty := Providers.specialty p;
       Providers.status := JStr "validated";
       Providers.confidence := Providers.confidence p;
       Providers.lastValidated := today |}.
Proof.
  intros Hs Hc. unfold Providers.update_provider.
  rewrite bool_decide_eq_true_2 by done.
  unfold Providers.newStatus, coalesce. rewrite Hs.
  by rewrite (newConfidence_falsy final Hc).
Qed.

End ValidateEdges.

Lemma X6_answer_without_status_or_score_witness :
  nullish (Providers.validation_status (Providers.final_of None)) = true
  ∧ truthy (Providers.confidence_score (Providers.final_of None)) = false
  ∧ Providers.update_provider (H := no_numeric_strings)
      "2025-02-01" "1" (Providers.final_of None) provider_1
    = {| Providers.id := "1";
         Providers.name := "Ada Moreau";
         Providers.npi := "1234567893";
         Providers.specialty := "Cardiology";
         Providers.status := JStr "validated";
         Providers.confidence := Fin 85;
         Providers.lastValidated := "2025-02-01" |}.
Proof.
  split; [reflexivity|]. split; [reflexivity|].
  apply (X6_answer_without_status_or_score (H := no_numeric_strings)
           "2025-02-01" (Providers.final_of None) provider_1); reflexivity.
Defined.

(** ** Case and the first space or underscore *)

Lemma lower_ascii_idem (c : ascii) :
  Discrepancies.lower_ascii (Discrepancies.lower_ascii c)
  = Discrepancies.lower_ascii c.
Proof. destruct c as [[] [] [] [] [] [] [] []]; by vm_compute. Qed.

Lemma lower_ascii_space (c : ascii) :
  Discrepancies.lower_ascii c = " "%char ↔ c = " "%char.
Proof. destruct c as [[] [] [] [] [] [] [] []]; by vm_compute. Qed.

Lemma upper_ascii_underscore (c : ascii) :
  Text.upper_ascii c = "_"%char ↔ c = "_"%char.
Proof. destruct c as [[] [] [] [] [] [] [] []]; by vm_compute. Qed.

Lemma upper_ascii_not_lower (c : ascii) :
  ¬ (97 ≤ nat_of_ascii (Text.upper_ascii c) ≤ 122)%nat.
Proof.
  destruct c as [[] [] [] [] [] [] [] []]; vm_compute; intros [? ?]; lia.
Qed.

Lemma toLowerCase_idem (s : string) :
  Discrepancies.toLowerCase (Discrepancies.toLowerCase s)
  = Discrepancies.toLowerCase s.
Proof. induction s as [|c s IH]; simpl; [done|]. by rewrite lower_ascii_idem, IH. Qed.

Lemma toLowerCase_empty (s : string) :
  Discrepancies.toLowerCase s = "" ↔ s = "".
Proof. by destruct s. Qed.

Lemma toLowerCase_length (s : string) :
  String.length (Discrepancies.toLowerCase s) = String.length s.
Proof. induction s as [|c s IH]; simpl; [done|]. by rewrite IH. Qed.

Lemma toLowerCase_count_space (s : string) :
  Text.count_char " " (Discrepancies.toLowerCase s) = Text.count_char " " s.
Proof.
  induction s as [|c s IH]; simpl; [done|]. rewrite IH. f_equal.
  apply (f_equal (λ b : bool, if b then 1%nat else 0%nat)).
  apply bool_decide_ext, lower_ascii_space.
Qed.

Lemma toUpperCase_length (s : string) :
  String.length (Text.toUpperCase s) = String.length s.
Proof. induction s as [|c s IH]; simpl; [done|]. by rewrite IH. Qed.

Lemma toUpperCase_count_underscore (s : string) :
  Text.count_char "_" (Text.toUpperCase s) = Text.count_char "_" s.
Proof.
  induction s as [|c s IH]; simpl; [done|]. rewrite IH. f_equal.
  apply (f_equal (λ b : bool, if b then 1%nat else 0%nat)).
  apply bool_decide_ext, upper_ascii_underscore.
Qed.

Lemma replace_first_length (a b : ascii) (s : string) :
  String.length (Text.replace_first a b s) = String.length s.
Proof.
  induction s as [|c s IH]; simpl; [done|].
  case_bool_decide; simpl; [done | by rewrite IH].
Qed.

Lemma replace_first_count (a b : ascii) (s : string) :
  a ≠ b →
  Text.count_char a (Text.replace_first a b s) = Nat.pred (Text.count_char a s).
Proof.
  intros Hab. induction s as [|c s IH]; simpl; [done|].
  case_bool_decide as Hc; simpl.
  - subst c. by rewrite bool_decide_eq_false_2.
  - by rewrite bool_decide_eq_false_2.
Qed.

Lemma replace_space_replace_first (s : string) :
  Discrepancies.replace_space s = Text.replace_first " " "_" s.
Proof. induction s as [|c s IH]; simpl; [done|]. by rewrite IH. Qed.

Lemma toLowerCase_app (s t : string) :
  Discrepancies.toLowerCase (s +:+ t)
  = Discrepancies.toLowerCase s +:+ Discrepancies.toLowerCase t.
Proof. induction s as [|c s IH]; simpl; [done|]. by rewrite IH. Qed.

Lemma toUpperCase_app (s t : string) :
  Text.toUpperCase (s +:+ t) = Text.toUpperCase s +:+ Text.toUpperCase t.
Proof. induction s as [|c s IH]; simpl; [done|]. by rewrite IH. Qed.

Lemma string_app_length (s t : string) :
  String.length (s +:+ t) = (String.length s + String.length t)%nat.
Proof. induction s as [|c s IH]; simpl; [done|]. by rewrite IH. Qed.

(** The first occurrence is the one that is replaced ... *)
Lemma replace_first_at (a b : ascii) (before after : string) :
  Text.count_char a before = 0%nat →
  Text.replace_first a b (before +:+ String a after) = before +:+ String b after.
Proof.
  induction before as [|c before IH]; simpl.
  - intros _. by rewrite bool_decide_eq_true_2.
  - case_bool_decide as Hc; [done|]. simpl. intros H0. by rewrite IH.
Qed.

(** ... and a text without any is left as it is. *)
Lemma replace_first_absent (a b : ascii) (s : string) :
  Text.count_char a s = 0%nat → Text.replace_first a b s = s.
Proof.
  induction s as [|c s IH]; simpl; [done|].
  case_bool_decide as Hc; [done|]. simpl. intros H0. by rewrite IH.
Qed.

Lemma lower_ascii_not_upper (c : ascii) :
  ¬ (65 ≤ nat_of_ascii (Discrepancies.lower_ascii c) ≤ 90)%nat.
Proof.
  destruct c as [[] [] [] [] [] [] [] []]; vm_compute; intros [? ?]; lia.
Qed.

Lemma toLowerCase_no_upper (s : string) :
  Forall (λ c, ¬ (65 ≤ nat_of_ascii c ≤ 90)%nat)
    (String.list_ascii_of_string (Discrepancies.toLowerCase s)).
Proof.
  induction s as [|c s IH]; simpl; constructor; [|done].
  apply lower_ascii_not_upper.
Qed.

Lemma toUpperCase_no_lower (s : string) :
  Forall (λ c, ¬ (97 ≤ nat_of_ascii c ≤ 122)%nat)
    (String.list_ascii_of_string (Text.toUpperCase s)).
Proof.
  induction s as [|c s IH]; simpl; constructor; [|done].
  apply upper_ascii_not_lower.
Qed.

Lemma list_ascii_app (s t : string) :
  String.list_ascii_of_string (s +:+ t)
  = (String.list_ascii_of_string s ++ String.list_ascii_of_string t)%list.
Proof. induction s as [|c s IH]; simpl; [done|]. by rewrite IH. Qed.

(** X7: on ASCII text the normalisation of a status lower-cases it and
    turns its first space, and no other, into an underscore: what stands
    before the first space and what stands after it are lower-cased and
    joined by an underscore, so the spaces after the first stay spaces;
    a text without a space is only lower-cased.  The result has the
    length of the text, holds no upper-case letter and does not depend
    on the case of the text. *)
Theorem X7_normalizedStatus_first_space_only (before after : string) :
  ascii_only before → ascii_only after →
  Text.count_char " " before = 0%nat →
  Discrepancies.normalizedStatus (before +:+ " " +:+ after)
  = Discrepancies.toLowerCase before +:+ "_" +:+ Discrepancies.toLowerCase after
  ∧ Text.count_char " " (Discrepancies.toLowerCase after)
    = Text.count_char " " after
  ∧ Discrepancies.normalizedStatus before = Discrepancies.toLowerCase before
  ∧ String.length (Discrepancies.normalizedStatus (before +:+ " " +:+ after))
    = String.length (before +:+ " " +:+ after)
  ∧ Forall (λ c, ¬ (65 ≤ nat_of_ascii c ≤ 90)%nat)
      (String.list_ascii_of_string
         (Discrepancies.normalizedStatus (before +:+ " " +:+ after)))
  ∧ Discrepancies.normalizedStatus
      (Discrepancies.toLowerCase (before +:+ " " +:+ after))
    = Discrepancies.normalizedStatus (before +:+ " " +:+ after).
Proof.
  intros _ _ Hbefore.
  assert (Hlower : Text.count_char " " (Discrepancies.toLowerCase before) = 0%nat)
    by by rewrite toLowerCase_count_space.
  assert (Hfirst :
    Discrepancies.normalizedStatus (before +:+ " " +:+ after)
    = Discrepancies.toLowerCase before +:+ "_"
      +:+ Discrepancies.toLowerCase after).
  { unfold Discrepancies.normalizedStatus.
    rewrite replace_space_replace_first, toLowerCase_app. simpl.
    change (Discrepancies.lower_ascii " ") with " "%char.
    by rewrite replace_first_at. }
  split; [exact Hfirst|]. split; [apply toLowerCase_count_space|]. split.
  { unfold Discrepancies.normalizedStatus.
    by rewrite replace_space_replace_first, replace_first_absent. }
  split.
  { unfold Discrepancies.normalizedStatus.
    by rewrite replace_space_replace_first, replace_first_length,
      toLowerCase_length. }
  split.
  { rewrite Hfirst, list_ascii_app. apply Forall_app. split.
    - apply toLowerCase_no_upper.
    - simpl. constructor; [vm_compute; intros [? ?]; lia|].
      apply toLowerCase_no_upper. }
  unfold Discrepancies.normalizedStatus. by rewrite toLowerCase_idem.
Qed.

Lemma X7_normalizedStatus_first_space_only_witness :
  ascii_only "Under" ∧ ascii_only "Review Now"
  ∧ Text.count_char " " "Under" = 0%nat
  ∧ Discrepancies.normalizedStatus "Under Review Now" = "under_review now".
Proof.
  assert (Hbefore : ascii_only "Under") by by_evaluation.
  assert (Hafter : ascii_only "Review Now") by by_evaluation.
  split; [exact Hbefore|]. split; [exact Hafter|]. split; [reflexivity|].
  exact (proj1 (X7_normalizedStatus_first_space_only "Under" "Review Now"
                  Hbefore Hafter eq_refl)).
Defined.

(** X8: on ASCII text the title of a discrepancy card (and the name of
    a status in the chart) is the field name in upper case with its
    first underscore, and no other, turned into a space: what stands
    before the first underscore and what stands after it are upper-cased
    and joined by a space, so the underscores after the first stay; a
    name without underscore is only upper-cased.  The title has the
    length of the name and holds no lower-case letter. *)
Theorem X8_heading_first_underscore_only (before after : string) :
  ascii_only before → ascii_only after →
  Text.count_char "_" before = 0%nat →
  DiscrepancyCard.heading (before +:+ "_" +:+ after)
  = Text.toUpperCase before +:+ " " +:+ Text.toUpperCase after
  ∧ Text.count_char "_" (Text.toUpperCase after) = Text.count_char "_" after
  ∧ DiscrepancyCard.heading before = Text.toUpperCase before
  ∧ String.length (DiscrepancyCard.heading (before +:+ "_" +:+ after))
    = String.length (before +:+ "_" +:+ after)
  ∧ Forall (λ c, ¬ (97 ≤ nat_of_ascii c ≤ 122)%nat)
      (String.list_ascii_of_string
         (DiscrepancyCard.heading (before +:+ "_" +:+ after))).
Proof.
  intros _ _ Hbefore. unfold DiscrepancyCard.heading.
  split.
  { change (before +:+ "_" +:+ after) with (before +:+ String "_" after).
    rewrite replace_first_at by done. by rewrite toUpperCase_app. }
  split; [apply toUpperCase_count_underscore|]. split.
  { by rewrite replace_first_absent. }
  split.
  { by rewrite toUpperCase_length, replace_first_length. }
  apply toUpperCase_no_lower.
Qed.

Lemma X8_heading_first_underscore_only_witness :
  ascii_only "license" ∧ ascii_only "number_state"
  ∧ Text.count_char "_" "license" = 0%nat
  ∧ DiscrepancyCard.heading "license_number_state" = "LICENSE NUMBER_STATE".
Proof.
  assert (Hbefore : ascii_only "license") by by_evaluation.
  assert (Hafter : ascii_only "number_state") by by_evaluation.
  split; [exact Hbefore|]. split; [exact Hafter|]. split; [reflexivity|].
  exact (proj1 (X8_heading_first_underscore_only "license" "number_state"
                  Hbefore Hafter eq_refl)).
Defined.

(** ** Searching and filtering the typed pages *)

Lemma search_empty_iff (s1 s2 : string) :
  Discrepancies.toLowerCase s1 = Discrepancies.toLowerCase s2 →
  bool_decide (s1 = "") = bool_decide (s2 = "").
Proof.
  intros Heq. apply bool_decide_ext.
  rewrite <- (toLowerCase_empty s1), <- (toLowerCase_empty s2). by rewrite Heq.
Qed.

(** X9: the search of the two typed pages ignores the case of the
    search text: two texts that differ only in case select the same
    providers and the same discrepancies, under every filter. *)
Theorem X9_search_ignores_case (search1 search2 : string) :
  Discrepancies.toLowerCase search1 = Discrepancies.toLowerCase search2 →
  (∀ providers statusFilter,
     ProvidersFilter.filteredProviders providers search1 statusFilter
     = ProvidersFilter.filteredProviders providers search2 statusFilter)
  ∧ (∀ discrepancies severityFilter statusFilter,
       DiscrepanciesFilter.filtered discrepancies search1 severityFilter statusFilter
       = DiscrepanciesFilter.filtered discrepancies search2 severityFilter
           statusFilter).
Proof.
  intros Heq. pose proof (search_empty_iff _ _ Heq) as Hempty. split.
  - intros providers statusFilter. apply list_filter_iff. intros p.
    unfold ProvidersFilter.matchesSearch. by rewrite Heq, Hempty.
  - intros discrepancies severityFilter statusFilter.
    apply list_filter_iff. intros d.
    unfold DiscrepanciesFilter.matchesSearch. by rewrite Heq, Hempty.
Qed.

Lemma X9_search_ignores_case_witness :
  Discrepancies.toLowerCase "CARDIO" = Discrepancies.toLowerCase "cardio"
  ∧ ProvidersFilter.filteredProviders [provider_1; provider_2] "CARDIO" "all"
    = ProvidersFilter.filteredProviders [provider_1; provider_2] "cardio" "all"
  ∧ ProvidersFilter.filteredProviders [provider_1; provider_2] "cardio" "all"
    = [provider_1].
Proof.
  split; [reflexivity|]. split; [|reflexivity].
  apply (X9_search_ignores_case "CARDIO" "cardio"). reflexivity.
Defined.

Lemma filter_all {A} (P : A → Prop) `{∀ x, Decision (P x)} (l : list A) :
  (∀ x, P x) → base.filter P l = l.
Proof.
  intros HP. induction l as [|x l IH]; [done|].
  by rewrite filter_cons_True, IH.
Qed.

(** X10: with an empty search text and every filter at 'all' the two
    typed pages hide nothing; under any search and filters they show a
    sub-list of what is loaded, in the same order, so the footer never
    counts more rows shown than loaded. *)
Theorem X10_filters_hide_only
    (providers : list Providers.Provider)
    (discrepancies : list Discrepancies.Discrepancy)
    (search severityFilter statusFilter : string) :
  ProvidersFilter.filteredProviders providers "" "all" = providers
  ∧ DiscrepanciesFilter.filtered discrepancies "" "all" "all" = discrepancies
  ∧ ProvidersFilter.filteredProviders providers search statusFilter
      `sublist_of` providers
  ∧ DiscrepanciesFilter.filtered discrepancies search severityFilter statusFilter
      `sublist_of` discrepancies
  ∧ ((ProvidersFilter.showing providers search statusFilter).1
     ≤ (ProvidersFilter.showing providers search statusFilter).2)%nat.
Proof.
  split; [by apply filter_all|]. split; [by apply filter_all|].
  split; [apply sublist_filter|]. split; [apply sublist_filter|].
  simpl. apply length_filter.
Qed.

(** X11: the filter buttons of the typed pages only ever switch between
    'all' and one value: after [n] clicks the providers page filters by
    'validated' (never by pending or failed), the discrepancies page by
    status 'open' (never by under_review or resolved) and by severity
    'high', when [n] is odd, and by nothing when [n] is even. *)
Theorem X11_filter_buttons_alternate (n : nat) :
  Nat.iter n ProvidersFilter.toggleStatus "all"
  = (if Nat.even n then "all" else "validated")
  ∧ Nat.iter n DiscrepanciesFilter.toggleStatus "all"
    = (if Nat.even n then "all" else "open")
  ∧ Nat.iter n DiscrepanciesFilter.toggleSeverity "all"
    = (if Nat.even n then "all" else "high").
Proof.
  induction n as [n IH] using lt_wf_ind.
  destruct n as [|[|n]]; [done..|].
  rewrite !Nat.iter_succ.
  destruct (IH n ltac:(lia)) as (-> & -> & ->).
  change (Nat.even (S (S n))) with (Nat.even n).
  by destruct (Nat.even n).
Qed.

(** ** The counters and the review handler of the discrepancies page *)

Lemma count_status_cons (s : string) (d : Discrepancies.Discrepancy) ds :
  Discrepancies.count_status s (d :: ds)
  = ((if bool_decide (Discrepancies.status d = s) then 1 else 0)
     + Discrepancies.count_status s ds)%nat.
Proof.
  unfold Discrepancies.count_status. rewrite filter_cons.
  case_bool_decide as Hd.
  - by rewrite decide_True.
  - by rewrite decide_False.
Qed.

Lemma Status_cases (s : string) :
  s ∈ Discrepancies.Status ↔ s = "open" ∨ s = "under_review" ∨ s = "resolved".
Proof.
  unfold Discrepancies.Status.
  rewrite !elem_of_union, !elem_of_singleton. tauto.
Qed.

(** X12: the three counters above the list (Open, Under Review,
    Resolved) never add up to more than the number of discrepancies
    loaded, and add up to it exactly when every loaded status is one of
    the three: a discrepancy with any other status is in no counter. *)
Theorem X12_counters_partition (ds : list Discrepancies.Discrepancy) :
  (Discrepancies.totalOpen ds + Discrepancies.totalUnderReview ds
   + Discrepancies.totalResolved ds ≤ length ds)%nat
  ∧ ((Discrepancies.totalOpen ds + Discrepancies.totalUnderReview ds
      + Discrepancies.totalResolved ds = length ds)%nat
     ↔ Forall (λ d, Discrepancies.status d ∈ Discrepancies.Status) ds).
Proof.
  unfold Discrepancies.totalOpen, Discrepancies.totalUnderReview,
    Discrepancies.totalResolved.
  induction ds as [|d ds [IHle IHeq]].
  - split; [done|]. split; [constructor | done].
  - rewrite !count_status_cons. simpl length.
    assert (Hd : ((if bool_decide (Discrepancies.status d = "open") then 1 else 0)
                  + (if bool_decide (Discrepancies.status d = "under_review")
                     then 1 else 0)
                  + (if bool_decide (Discrepancies.status d = "resolved")
                     then 1 else 0) ≤ 1)%nat
                 ∧ (((if bool_decide (Discrepancies.status d = "open") then 1 else 0)
                     + (if bool_decide (Discrepancies.status d = "under_review")
                        then 1 else 0)
                     + (if bool_decide (Discrepancies.status d = "resolved")
                        then 1 else 0) = 1)%nat
                    ↔ Discrepancies.status d ∈ Discrepancies.Status)).
    { rewrite Status_cases.
      destruct (decide (Discrepancies.status d = "open")) as [->|H1];
        [split; [done | split; [auto | done]]|].
      destruct (decide (Discrepancies.status d = "under_review")) as [->|H2];
        [split; [done | split; [auto | done]]|].
      destruct (decide (Discrepancies.status d = "resolved")) as [->|H3];
        [split; [done | split; [auto | done]]|].
      rewrite !bool_decide_eq_false_2 by done. split; [simpl; lia|].
      split; [done | by intros [?|[?|?]]]. }
    destruct Hd as [Hdle Hdeq]. split; [lia|].
    rewrite Forall_cons, <- Hdeq, <- IHeq. lia.
Qed.

Lemma truthy_or_default (a b : jsval) (text : string) :
  text ≠ "" → truthy (or (or a b) (JStr text)) = true.
Proof.
  intros Ht. apply truthy_or_r. simpl. by rewrite bool_decide_eq_false_2.
Qed.

(** X13: a review changes at most the status of the rows that carry the
    reviewed id: every row keeps its place and all its other fields,
    rows with another id are untouched, and the rows with the id get the
    normalised status of the answer, or of the status asked for when the
    answer has none.  A rejected review leaves the list as it was and
    always sets an error text. *)
Theorem X13_handleReview_writes_one_status
    (disc : Discrepancies.Discrepancy) (updated : option string)
    (err : Discrepancies.Failure) (st : Discrepancies.State) :
  Forall2
    (λ d d',
       Discrepancies.id d' = Discrepancies.id d
       ∧ Discrepancies.providerId d' = Discrepancies.providerId d
       ∧ Discrepancies.providerName d' = Discrepancies.providerName d
       ∧ Discrepancies.type d' = Discrepancies.type d
       ∧ Discrepancies.severity d' = Discrepancies.severity d
       ∧ Discrepancies.description d' = Discrepancies.description d
       ∧ Discrepancies.detectedDate d' = Discrepancies.detectedDate d
       ∧ Discrepancies.status d'
         = if bool_decide (Discrepancies.id d = Discrepancies.id disc)
           then Discrepancies.normalizedStatus
                  (default (Discrepancies.nextStatus (Discrepancies.status disc))
                     updated)
           else Discrepancies.status d)
    (Discrepancies.discrepancies st)
    (Discrepancies.discrepancies
       (Discrepancies.handleReview disc (inr updated) st))
  ∧ Discrepancies.discrepancies (Discrepancies.handleReview disc (inl err) st)
    = Discrepancies.discrepancies st
  ∧ truthy (Discrepancies.error (Discrepancies.handleReview disc (inl err) st))
    = true.
Proof.
  split; [|split; [reflexivity | by apply truthy_or_default]].
  simpl. apply Forall2_fmap_r, Forall_Forall2_diag, Forall_forall. intros d _.
  unfold Discrepancies.set_status. simpl.
  destruct (bool_decide (Discrepancies.id d = Discrepancies.id disc));
    repeat split; reflexivity.
Qed.

(** ** The action area of a discrepancy card *)

(** X14: the action area of a card holds at most one thing: the
    Mark-as-Resolved button exactly when the status is strictly 'open',
    the Resolved mark exactly when it is strictly 'resolved', and
    nothing for any other status (under_review, a capitalised 'Open', a
    missing status). *)
Theorem X14_actions_exclusive (d : DiscrepancyList.discrepancy) :
  (length (DiscrepancyList.actions d) ≤ 1)%nat
  ∧ (DiscrepancyList.MarkAsResolved (DiscrepancyList.id d)
       ∈ DiscrepancyList.actions d
     ↔ DiscrepancyList.status d = JStr "open")
  ∧ (DiscrepancyList.ResolvedBadge ∈ DiscrepancyList.actions d
     ↔ DiscrepancyList.status d = JStr "resolved")
  ∧ (DiscrepancyList.actions d = []
     ↔ DiscrepancyList.status d ≠ JStr "open"
       ∧ DiscrepancyList.status d ≠ JStr "resolved").
Proof.
  unfold DiscrepancyList.actions.
  destruct (strict_eq (DiscrepancyList.status d) (JStr "open")) eqn:Ho;
    destruct (strict_eq (DiscrepancyList.status d) (JStr "resolved")) eqn:Hr;
    try (apply not_true_iff_false in Ho; rewrite strict_eq_JStr in Ho);
    try (apply not_true_iff_false in Hr; rewrite strict_eq_JStr in Hr);
    try apply strict_eq_JStr in Ho; try apply strict_eq_JStr in Hr;
    [congruence|..]; simpl;
    rewrite ?list_elem_of_singleton, ?elem_of_nil;
    (split; [lia|]); repeat split; try done; try congruence;
    by intros [? ?].
Qed.

(** ** The provider names of the discrepancies page *)

Lemma string_app_nonempty (a b : string) : b ≠ "" → a +:+ b ≠ "".
Proof. intros Hb. destruct a; simpl; [done | discriminate]. Qed.

(** Every name [loadData] stores is truthy. *)
Lemma name_truthy (p : DiscrepanciesData.provider) :
  truthy (DiscrepanciesData.name p) = true.
Proof.
  unfold DiscrepanciesData.name.
  destruct (truthy (DiscrepanciesData.first_name p)
            && truthy (DiscrepanciesData.last_name p)).
  - simpl. rewrite bool_decide_eq_false_2; [done|].
    apply string_app_nonempty. discriminate.
  - by apply truthy_or_r.
Qed.

Lemma assign_lookup (m : gmap string jsval) (key key' : string) (value : jsval) :
  DiscrepanciesData.assign m key value !! key'
  = if bool_decide (key = key' ∧ key' ≠ "__proto__") then Some value
    else m !! key'.
Proof.
  unfold DiscrepanciesData.assign. case_bool_decide as Hproto.
  - subst key. rewrite bool_decide_eq_false_2; [done|]. by intros [<- ?].
  - destruct (decide (key = key')) as [<-|Hne].
    + by rewrite lookup_insert_eq, bool_decide_eq_true_2.
    + rewrite lookup_insert_ne by done.
      rewrite bool_decide_eq_false_2; [done|]. by intros [? _].
Qed.

(** The entry of a key is the name of the last provider loaded with
    that key; [__proto__] never becomes a key. *)
Lemma providerMap_lookup (provData : list DiscrepanciesData.provider) (key : string) :
  DiscrepanciesData.providerMap provData !! key
  = DiscrepanciesData.name
      <$> last (base.filter
                  (λ p, ToString (DiscrepanciesData.id p) = key
                        ∧ key ≠ "__proto__") provData).
Proof.
  unfold DiscrepanciesData.providerMap.
  induction provData as [|p provData IH] using rev_ind; [done|].
  rewrite foldl_snoc, assign_lookup, filter_app, filter_cons, filter_nil.
  case_bool_decide as Hp.
  - rewrite decide_True by done. by rewrite last_snoc.
  - rewrite decide_False by done. by rewrite app_nil_r.
Qed.

(** X15: the provider line of a discrepancy card shows the name of the
    last provider loaded under the discrepancy's provider id, whatever
    that name is (a stored name is never empty, so it is never replaced
    by the fallback); when no provider was loaded under the id it shows
    "Provider ID: <id>", unless the id names an inherited property, for
    which there is no text. *)
Theorem X15_provider_label_from_loaded_names
    (provData : list DiscrepanciesData.provider) (provider_id : jsval) :
  DiscrepancyCard.provider_label
    (DiscrepanciesData.providerMap provData) provider_id
  = match last (base.filter
                  (λ p, ToString (DiscrepanciesData.id p) = ToString provider_id
                        ∧ ToString provider_id ≠ "__proto__") provData) with
    | Some p => Own (DiscrepanciesData.name p)
    | None =>
        if bool_decide (ToString provider_id ∈ Object_prototype) then Inherited
        else Own (JStr ("Provider ID: " +:+ ToString provider_id))
    end.
Proof.
  unfold DiscrepancyCard.provider_label, get.
  rewrite providerMap_lookup.
  destruct (last _) as [p|]; simpl.
  - unfold or. by rewrite name_truthy.
  - by case_bool_decide.
Qed.

(** ** The request for discrepancies *)

(** X16: reloading the discrepancies under a status filter sends no
    query parameter for the filter 'all' and exactly [status=<filter>]
    for any other filter; it never sends a provider id. *)
Theorem X16_loadDiscrepancies_params (statusFilter : string) :
  statusFilter ≠ "" →
  API.getDiscrepancies_params
    (DiscrepanciesData.loadDiscrepancies_args statusFilter).1
    (DiscrepanciesData.loadDiscrepancies_args statusFilter).2
  = if bool_decide (statusFilter = "all") then ∅
    else {[ "status" := JStr statusFilter ]}.
Proof.
  intros Hne. unfold DiscrepanciesData.loadDiscrepancies_args,
    API.getDiscrepancies_params. simpl.
  case_bool_decide; simpl; [done|].
  by rewrite bool_decide_eq_false_2.
Qed.

Lemma X16_loadDiscrepancies_params_witness :
  "open" ≠ ""
  ∧ API.getDiscrepancies_params
      (DiscrepanciesData.loadDiscrepancies_args "open").1
      (DiscrepanciesData.loadDiscrepancies_args "open").2
    = {[ "status" := JStr "open" ]}.
Proof.
  split; [discriminate|].
  apply (X16_loadDiscrepancies_params "open"). discriminate.
Defined.

(** ** The charts of the reports page *)

Section Histogram.
Context `{StringToNumber}.

Lemma bucket_lt (p : ProviderTable.provider) : (ReportsPage.bucket p < 5)%nat.
Proof. unfold ReportsPage.bucket. repeat case_match; lia. Qed.

Lemma count_into (counts : list Z) (providers : list ProviderTable.provider) (i : nat) :
  foldl (λ counts provider,
           alter (λ n, n + 1) (ReportsPage.bucket provider) counts)
        counts providers !! i
  = (λ n, n + Z.of_nat
                (length (base.filter (λ p, ReportsPage.bucket p = i) providers)))
      <$> counts !! i.
Proof.
  revert counts. induction providers as [|p providers IH]; intros counts.
  - simpl. destruct (counts !! i); simpl; [f_equal; lia | done].
  - simpl. rewrite IH, filter_cons.
    destruct (decide (ReportsPage.bucket p = i)) as [<-|Hne].
    + rewrite list_lookup_alter_eq.
      destruct (counts !! ReportsPage.bucket p); simpl; [|done].
      f_equal. lia.
    + by rewrite list_lookup_alter_ne.
Qed.

Lemma count_length (counts : list Z) (providers : list ProviderTable.provider) :
  length (foldl (λ counts provider,
                   alter (λ n, n + 1) (ReportsPage.bucket provider) counts)
                counts providers)
  = length counts.
Proof.
  revert counts. induction providers as [|p ps IH]; intros counts; simpl; [done|].
  by rewrite IH, length_alter.
Qed.

(** X17: the histogram of the reports page counts every provider in
    exactly one of its five ranges: the count of a range is the number
    of providers whose score falls in it, and the five counts add up to
    the number of providers. *)
Theorem X17_histogram_counts_every_provider
    (providers : list ProviderTable.provider) :
  length (ReportsPage.confidenceRanges providers) = 5%nat
  ∧ (∀ i, (i < 5)%nat →
          ReportsPage.confidenceRanges providers !! i
          = Some (Z.of_nat
                    (length (base.filter (λ p, ReportsPage.bucket p = i)
                               providers))))
  ∧ foldr Z.add 0 (ReportsPage.confidenceRanges providers)
    = Z.of_nat (length providers).
Proof.
  assert (Hcount : ∀ i, (i < 5)%nat →
            ReportsPage.confidenceRanges providers !! i
            = Some (Z.of_nat
                      (length (base.filter (λ p, ReportsPage.bucket p = i)
                                 providers)))).
  { intros i Hi. unfold ReportsPage.confidenceRanges. rewrite count_into.
    destruct i as [|[|[|[|[|i]]]]]; simpl; try done; lia. }
  assert (Hlen : length (ReportsPage.confidenceRanges providers) = 5%nat).
  { unfold ReportsPage.confidenceRanges. by rewrite count_length. }
  split; [exact Hlen|]. split; [exact Hcount|].
  destruct (ReportsPage.confidenceRanges providers)
    as [|c0 [|c1 [|c2 [|c3 [|c4 [|c5 rest]]]]]] eqn:Hr; try done.
  pose proof (Hcount 0%nat ltac:(lia)) as H0.
  pose proof (Hcount 1%nat ltac:(lia)) as H1.
  pose proof (Hcount 2%nat ltac:(lia)) as H2.
  pose proof (Hcount 3%nat ltac:(lia)) as H3.
  pose proof (Hcount 4%nat ltac:(lia)) as H4.
  simpl in H0, H1, H2, H3, H4.
  injection H0 as ->. injection H1 as ->. injection H2 as ->.
  injection H3 as ->. injection H4 as ->. simpl.
  clear Hr Hcount Hlen.
  induction providers as [|p ps IH]; [done|].
  rewrite !filter_cons. pose proof (bucket_lt p) as Hp.
  destruct (ReportsPage.bucket p) as [|[|[|[|[|b]]]]]; [..|lia];
    repeat (rewrite decide_True by done || rewrite decide_False by done);
    simpl length; lia.
Qed.

(** X18: where the histogram puts an unusual score.  A falsy score
    (missing, null, 0, NaN) and a negative one are counted in 0-20; a
    score above 100, and a text that is no number, are counted in
    81-100; an integer from 0 to 100 is counted in the range whose label
    holds it. *)
Theorem X18_histogram_ranges (p : ProviderTable.provider) :
  (truthy (ProviderTable.confidence_score p) = false → ReportsPage.bucket p = 0%nat)
  ∧ (∀ s, ProviderTable.confidence_score p = JStr s → s ≠ "" →
          string_to_number s = NaN → ReportsPage.bucket p = 4%nat)
  ∧ (∀ z, ProviderTable.confidence_score p = JNum (Fin z) →
          ReportsPage.bucket p
          = if bool_decide (z ≤ 20) then 0%nat
            else if bool_decide (z ≤ 40) then 1%nat
            else if bool_decide (z ≤ 60) then 2%nat
            else if bool_decide (z ≤ 80) then 3%nat
            else 4%nat)
  ∧ ReportsPage.ranges = [ "0-20"; "21-40"; "41-60"; "61-80"; "81-100" ].
Proof.
  unfold ReportsPage.bucket. repeat split.
  - intros Hp. by rewrite (or_falsy _ _ Hp).
  - intros s Hs Hne Hnan. rewrite Hs. unfold or. simpl.
    rewrite bool_decide_eq_false_2 by done. simpl. by rewrite Hnan.
  - intros z Hz. rewrite Hz. unfold or. simpl.
    case_bool_decide as Hz0; simpl; [subst z; done|]. done.
Qed.

End Histogram.

Lemma statusData_snoc (providers : list ProviderTable.provider) p :
  ReportsPage.statusData (providers ++ [p])
  = ReportsPage.statusData providers ≫= λ acc, ReportsPage.count_status acc p.
Proof. unfold ReportsPage.statusData. by rewrite foldl_snoc. Qed.

Lemma counted_snoc (key : string) (providers : list ProviderTable.provider) p :
  ReportsPage.counted key (providers ++ [p])
  = (ReportsPage.counted key providers
     + if bool_decide (ReportsPage.status_key p = key) then 1 else 0)%nat.
Proof.
  unfold ReportsPage.counted.
  rewrite filter_app, length_app, filter_cons, filter_nil.
  case_bool_decide.
  - by rewrite decide_True.
  - by rewrite decide_False.
Qed.

(** What the chart data holds after the [reduce]. *)
Lemma statusData_counts (providers : list ProviderTable.provider) (m : gmap string Z) :
  ReportsPage.statusData providers = Some m →
  Forall (λ p, ReportsPage.status_key p ∉ Object_prototype) providers
  ∧ ∀ key, m !! key
           = if bool_decide (ReportsPage.counted key providers = 0%nat) then None
             else Some (Z.of_nat (ReportsPage.counted key providers)).
Proof.
  revert m. induction providers as [|p providers IH] using rev_ind; intros m.
  - intros [= <-]. split; [constructor|]. intros key. by rewrite lookup_empty.
  - rewrite statusData_snoc.
    destruct (ReportsPage.statusData providers) as [acc|]; [|done]. simpl.
    destruct (IH acc eq_refl) as [Hkeys Hacc].
    unfold ReportsPage.count_status, get. rewrite Hacc.
    case_bool_decide as Hzero.
    + case_bool_decide as Hproto; [done|]. intros [= <-]. split.
      * apply Forall_app. split; [done|]. by repeat constructor.
      * intros key. rewrite counted_snoc.
        destruct (decide (ReportsPage.status_key p = key)) as [<-|Hne].
        -- rewrite lookup_insert_eq, Hzero.
           rewrite (bool_decide_eq_true_2 (ReportsPage.status_key p = _)) by done.
           by rewrite bool_decide_eq_false_2 by lia.
        -- rewrite lookup_insert_ne, Hacc by done.
           rewrite (bool_decide_eq_false_2 (ReportsPage.status_key p = key)) by done.
           by rewrite Nat.add_0_r.
    + intros [= <-]. split.
      * apply Forall_app. split; [done|]. repeat constructor.
        unfold ReportsPage.counted in Hzero.
        destruct (base.filter _ providers) as [|q rest] eqn:Hq; [done|].
        assert (Hin : q ∈ base.filter
                        (λ q, ReportsPage.status_key q = ReportsPage.status_key p)
                        providers) by (rewrite Hq; apply list_elem_of_here).
        apply list_elem_of_filter in Hin as [<- Hin].
        rewrite Forall_forall in Hkeys. by apply Hkeys.
      * intros key. rewrite counted_snoc.
        rewrite bool_decide_eq_false_2 by lia.
        destruct (decide (ReportsPage.status_key p = key)) as [<-|Hne].
        -- rewrite lookup_insert_eq.
           rewrite (bool_decide_eq_true_2 (ReportsPage.status_key p = _)) by done.
           rewrite bool_decide_eq_false_2 by lia. f_equal. lia.
        -- rewrite lookup_insert_ne, Hacc by done.
           rewrite (bool_decide_eq_false_2 (ReportsPage.status_key p = key)) by done.
           by rewrite Nat.add_0_r.
Qed.

Lemma statusData_defined (providers : list ProviderTable.provider) :
  Forall (λ p, ReportsPage.status_key p ∉ Object_prototype) providers →
  is_Some (ReportsPage.statusData providers).
Proof.
  induction providers as [|p providers IH] using rev_ind; [by eexists|].
  intros [Hps Hp]%Forall_app. rewrite Forall_singleton in Hp.
  rewrite statusData_snoc. destruct (IH Hps) as [acc ->]. simpl.
  unfold ReportsPage.count_status, get.
  destruct (acc !! ReportsPage.status_key p); simpl; [by eexists|].
  rewrite bool_decide_eq_false_2 by exact Hp. by eexists.
Qed.

(** X19: the status chart of the reports page counts each provider once,
    under the status its badge shows: when no shown status names an
    inherited property, the chart data has, for every status, the number
    of providers shown under it, and no entry for a status no provider
    is shown under. *)
Theorem X19_statusData_counts_shown_statuses
    (providers : list ProviderTable.provider) :
  Forall (λ p, ReportsPage.status_key p ∉ Object_prototype) providers →
  ∃ m, ReportsPage.statusData providers = Some m
       ∧ ∀ key, m !! key
                = if bool_decide (ReportsPage.counted key providers = 0%nat)
                  then None
                  else Some (Z.of_nat (ReportsPage.counted key providers)).
Proof.
  intros Hkeys. destruct (statusData_defined providers Hkeys) as [m Hm].
  exists m. split; [done|]. by apply statusData_counts.
Qed.

Lemma X19_statusData_counts_shown_statuses_witness :
  Forall (λ p, ReportsPage.status_key p ∉ Object_prototype)
    [validated_payload; two_status_payload]
  ∧ ReportsPage.statusData [validated_payload; two_status_payload]
    = Some {[ "validated" := 2 ]}
  ∧ ∃ m, ReportsPage.statusData [validated_payload; two_status_payload] = Some m
         ∧ ∀ key, m !! key
                  = if bool_decide
                         (ReportsPage.counted key
                            [validated_payload; two_status_payload] = 0%nat)
                    then None
                    else Some (Z.of_nat
                                 (ReportsPage.counted key
                                    [validated_payload; two_status_payload])).
Proof.
  assert (H1 : Forall (λ p, ReportsPage.status_key p ∉ Object_prototype)
                 [validated_payload; two_status_payload]).
  { repeat constructor; by_evaluation. }
  split; [exact H1|]. split; [reflexivity|].
  exact (X19_statusData_counts_shown_statuses
           [validated_payload; two_status_payload] H1).
Defined.

(** ** Selecting and uploading files *)

Lemma handleCSVUpload_typed file st :
  UploadPage.files_typed st →
  UploadPage.files_typed (UploadPage.handleCSVUpload file st).
Proof.
  intros [Hc Hp]. unfold UploadPage.handleCSVUpload.
  destruct file as [f|]; [case_bool_decide|]; by split.
Qed.

Lemma handlePDFUpload_typed file st :
  UploadPage.files_typed st →
  UploadPage.files_typed (UploadPage.handlePDFUpload file st).
Proof.
  intros [Hc Hp]. unfold UploadPage.handlePDFUpload.
  destruct file as [f|]; [case_bool_decide|]; by split.
Qed.

Lemma handleSubmit_typed answer st :
  UploadPage.files_typed st →
  UploadPage.files_typed (UploadPage.handleSubmit answer st).2.
Proof.
  intros [Hc Hp]. unfold UploadPage.handleSubmit.
  destruct (UploadPage.csvFile st) as [f|] eqn:Hf; [|by split; rewrite ?Hf].
  destruct (UploadPage.csv answer) as [detail|[uploaded|]];
    destruct (UploadPage.pdfFile st) as [g|] eqn:Hg;
    destruct (UploadPage.pdf answer) as [detail'|];
    simpl; split; rewrite ?Hf, ?Hg; done.
Qed.

Lemma after_typed (events : list UploadPage.Event) :
  UploadPage.files_typed (UploadPage.after events).
Proof.
  unfold UploadPage.after.
  induction events as [|e events IH] using rev_ind; [by split|].
  rewrite foldl_snoc. destruct e as [file|file|answer]; simpl.
  - by apply handleCSVUpload_typed.
  - by apply handlePDFUpload_typed.
  - by apply handleSubmit_typed.
Qed.

(** X20: whatever files are selected and however earlier submits went,
    the upload page only ever sends files of the right kind: a submit
    sends nothing when no CSV file is selected, and otherwise sends the
    selected text/csv file first, followed by the selected
    application/pdf file if there is one and the CSV upload was not
    rejected; a file of another type never replaces a selected one. *)
Theorem X20_upload_sends_typed_files
    (events : list UploadPage.Event) (answer : UploadPage.Answer) :
  let st := UploadPage.after events in
  let requests := (UploadPage.handleSubmit answer st).1 in
  UploadPage.files_typed st
  ∧ Forall UploadPage.request_typed requests
  ∧ match UploadPage.csvFile st with
    | None => requests = []
    | Some file =>
        requests = [UploadPage.uploadCSV file]
        ∨ (∃ pdf, UploadPage.pdfFile st = Some pdf
                  ∧ requests = [UploadPage.uploadCSV file; UploadPage.uploadPDF pdf])
    end.
Proof.
  intros st requests. pose proof (after_typed events) as [Hc Hp].
  fold st in Hc, Hp. split; [by split|].
  subst requests. unfold UploadPage.handleSubmit.
  destruct (UploadPage.csvFile st) as [f|]; [|by split].
  destruct (UploadPage.pdfFile st) as [g|]; simpl in *;
    destruct (UploadPage.csv answer) as [detail|[uploaded|]];
    destruct (UploadPage.pdf answer) as [detail'|]; simpl;
    (split; [by repeat constructor | eauto]).
Qed.

(** X21: after a submit that succeeds the form is empty again: both
    selections are cleared, so a second submit sends nothing and asks
    for a CSV file; after a submit that fails both selections are kept. *)
Theorem X21_submit_resets_on_success_only
    (answer answer' : UploadPage.Answer) (st : UploadPage.State) :
  is_Some (UploadPage.csvFile st) →
  let st' := (UploadPage.handleSubmit answer st).2 in
  (UploadPage.messageType st' = Some "success"
   ∨ UploadPage.messageType st' = Some "error")
  ∧ truthy (UploadPage.message st') = true
  ∧ UploadPage.uploading st' = false
  ∧ (UploadPage.messageType st' = Some "success" →
     UploadPage.csvFile st' = None ∧ UploadPage.pdfFile st' = None
     ∧ (UploadPage.handleSubmit answer' st').1 = []
     ∧ UploadPage.message (UploadPage.handleSubmit answer' st').2
       = JStr "Please select a CSV file to upload")
  ∧ (UploadPage.messageType st' = Some "error" →
     UploadPage.csvFile st' = UploadPage.csvFile st
     ∧ UploadPage.pdfFile st' = UploadPage.pdfFile st).
Proof.
  intros [f Hf] st'.
  assert (Hst' :
    (∃ uploaded,
       st' = {| UploadPage.csvFile := None; UploadPage.pdfFile := None;
                UploadPage.uploading := false;
                UploadPage.message :=
                  JStr ("Successfully uploaded " +:+ ToString uploaded
                        +:+ " providers");
                UploadPage.messageType := Some "success" |})
    ∨ (∃ detail,
         st' = {| UploadPage.csvFile := UploadPage.csvFile st;
                  UploadPage.pdfFile := UploadPage.pdfFile st;
                  UploadPage.uploading := false;
                  UploadPage.message := or detail (JStr "Error uploading files");
                  UploadPage.messageType := Some "error" |})).
  { subst st'. unfold UploadPage.handleSubmit. rewrite Hf.
    destruct (UploadPage.csv answer) as [detail|[uploaded|]];
      destruct (UploadPage.pdfFile st) as [g|];
      destruct (UploadPage.pdf answer) as [detail'|]; simpl; eauto. }
  clearbody st'. destruct Hst' as [[uploaded ->]|[detail ->]]; simpl.
  - split; [by left|]. split; [|split; [done|]].
    { reflexivity. }
    split; [|done]. intros _. repeat split; reflexivity.
  - split; [by right|]. split; [by apply truthy_or_r|]. split; [done|].
    split; [done|]. intros _. by split.
Qed.

Lemma X21_submit_resets_on_success_only_witness :
  let st :=
    UploadPage.after
      [UploadPage.SelectCSV
         (Some {| UploadPage.name := "providers.csv";
                  UploadPage.type := "text/csv" |})] in
  let answer :=
    {| UploadPage.csv := inr (Some (JNum (Fin 12))); UploadPage.pdf := None |} in
  is_Some (UploadPage.csvFile st)
  ∧ UploadPage.message (UploadPage.handleSubmit answer st).2
    = JStr "Successfully uploaded 12 providers"
  ∧ (UploadPage.handleSubmit answer (UploadPage.handleSubmit answer st).2).1 = []
  ∧ UploadPage.uploading (UploadPage.handleSubmit answer st).2 = false.
Proof.
  intros st answer.
  assert (H1 : is_Some (UploadPage.csvFile st)) by (by eexists).
  split; [exact H1|]. split; [reflexivity|]. split; [reflexivity|].
  exact (proj1 (proj2 (proj2
    (X21_submit_resets_on_success_only answer answer st H1)))).
Defined.

(** ** Loading and validating on the providers pages *)

(** X22: the name of a loaded provider is its full_name when it has one,
    and otherwise its truthy first and last names joined by a space: the
    fallback 'Unknown provider' is never used, and a provider without
    any name gets the empty name. *)
Theorem X22_loaded_name_never_falls_back (p : ProvidersLoad.payload) :
  ProvidersLoad.name p
  = (if nullish (ProvidersLoad.full_name p)
     then JStr (ProvidersLoad.joined p) else ProvidersLoad.full_name p)
  ∧ (nullish (ProvidersLoad.full_name p) = true →
     truthy (ProvidersLoad.first_name p) = false →
     truthy (ProvidersLoad.last_name p) = false →
     ProvidersLoad.name p = JStr "").
Proof.
  assert (Hname : ProvidersLoad.name p
                  = if nullish (ProvidersLoad.full_name p)
                    then JStr (ProvidersLoad.joined p)
                    else ProvidersLoad.full_name p).
  { unfold ProvidersLoad.name, coalesce.
    destruct (nullish (ProvidersLoad.full_name p)) eqn:Hf; [done|].
    by rewrite Hf. }
  split; [exact Hname|]. intros Hf H1 H2. rewrite Hname, Hf.
  unfold ProvidersLoad.joined. rewrite !filter_cons, filter_nil.
  rewrite !decide_False by (by rewrite ?H1, ?H2). done.
Qed.

